(** * WhatsApp football bot: roster state machine and team partitioning

    A shallow embedding of [app.py].  The webhook handler [whatsapp_bot]
    loads the store from [players.json], interprets one text command,
    possibly writes the store back and sets the body of the reply message.
    The handler is written in a small state-and-exception monad so that
    the order of mutations, saves and replies is the one of the Python
    code, and so that the three operations which can raise in Python
    (subscripting a dict, [list.remove], subscripting a list) are visible
    as such.

    What is taken from the environment:
    - the JSON document is well-typed: a list of phones, a dict from phone
      to a record with a name, a session with a flag and a list of phones;
      an absent or unreadable file is [None] and loads as [init_data];
    - a write of the file succeeds ([save_data]'s handler of a failed
      write only prints);
    - [str.strip] and [str.lower] are an interface ([StrOps]): every
      theorem holds for all implementations of it;
    - [random.shuffle] is the standard library's loop, with the draws of
      the generator given as an explicit stream: every theorem holds for
      all streams. *)

From Stdlib Require Import Ascii String.
From stdpp Require Import base option list gmap strings pretty.

(** ** Strings *)

(** The newline character of the Python literals. *)
Definition nl : string := String (ascii_of_nat 10) EmptyString.

(** [s * k] on a Python string. *)
Fixpoint str_repeat (s : string) (k : nat) : string :=
  match k with
  | 0 => ""
  | S k' => s +:+ str_repeat s k'
  end.

(** [str(n)] for a non-negative integer. *)
Definition str_of_nat (n : nat) : string := pretty n.

(** [str.strip] and [str.lower] are the interpreter's, over Unicode text;
    the handler only composes them, so they are kept as an interface. *)
Class StrOps := {
  py_strip : string → string;
  py_lower : string → string
}.

(** An instance that agrees with the interpreter on ASCII text; it is the
    one the handler is run with on concrete requests below. *)
Definition ascii_lower_char (c : ascii) : ascii :=
  let n := nat_of_ascii c in
  if (65 <=? n) && (n <=? 90) then ascii_of_nat (n + 32) else c.

Fixpoint ascii_lower (s : string) : string :=
  match s with
  | EmptyString => EmptyString
  | String c s' => String (ascii_lower_char c) (ascii_lower s')
  end.

Definition ascii_is_space (c : ascii) : bool :=
  let n := nat_of_ascii c in
  ((9 <=? n) && (n <=? 13)) || ((28 <=? n) && (n <=? 32)).

Fixpoint ascii_lstrip (s : string) : string :=
  match s with
  | EmptyString => EmptyString
  | String c s' => if ascii_is_space c then ascii_lstrip s' else s
  end.

Fixpoint ascii_rstrip (s : string) : string :=
  match s with
  | EmptyString => EmptyString
  | String c s' =>
      match ascii_rstrip s' with
      | EmptyString => if ascii_is_space c then EmptyString else String c EmptyString
      | r => String c r
      end
  end.

Definition ascii_ops : StrOps :=
  {| py_strip := λ s, ascii_rstrip (ascii_lstrip s); py_lower := ascii_lower |}.

(** ** The random source and [random.shuffle] *)

(** The generator is a stream of raw draws; the [k]-th call of
    [randbelow n] returns the [k]-th draw reduced below [n]. *)
Definition Rng := nat → nat.

Definition randbelow (rng : Rng) (k n : nat) : nat := rng k `mod` n.

Section Shuffle.
Context {A : Type}.

(** [x[i], x[j] = x[j], x[i]]: both reads happen before the writes. *)
Definition swap (x : list A) (i j : nat) : list A :=
  match x !! i, x !! j with
  | Some xi, Some xj => <[j:=xi]> (<[i:=xj]> x)
  | _, _ => x
  end.

(** [for i in reversed(range(1, len(x))): j = randbelow(i + 1); swap],
    [k] counting the draws made so far. *)
Fixpoint shuffle_loop (rng : Rng) (k i : nat) (x : list A) : list A :=
  match i with
  | 0 => x
  | S i' => shuffle_loop rng (S k) i' (swap x i (randbelow rng k (i + 1)))
  end.

Definition shuffle (rng : Rng) (x : list A) : list A :=
  shuffle_loop rng 0 (length x - 1) x.

(** [l[i:j]] for indices [0 <= i <= j]. *)
Definition slice (l : list A) (i j : nat) : list A := take (j - i) (drop i l).
End Shuffle.

(** [range(start, stop, step)] for a positive step, as the loop that
    enumerates it; [fuel] bounds the number of iterations. *)
Fixpoint range_loop (fuel i stop step : nat) : list nat :=
  match fuel with
  | 0 => []
  | S fuel' => if i <? stop then i :: range_loop fuel' (i + step) stop step else []
  end.

Definition py_range (start stop step : nat) : list nat :=
  range_loop (stop - start) start stop step.

(** ** Configuration *)

Definition PLAYERS_PER_TEAM : nat := 6.

(** ** create_teams *)

Definition create_teams {A : Type} (rng : Rng) (players : list A) : list (list A) :=
  let num_players := length players in
  if num_players =? 0 then []
  else
    let shuffled := shuffle rng players in
    (λ i, slice shuffled i (i + PLAYERS_PER_TEAM))
      <$> py_range 0 num_players PLAYERS_PER_TEAM.

(** [ceil(n / c)] on naturals. *)
Definition ceil_div (n c : nat) : nat := (n + c - 1) / c.

(** ** The store *)

(** [{"name": ...}], the value kept for a phone number. *)
Record Player := { name : string }.

Record Session := {
  active : bool;
  participants : list string   (* phones who said "in", in order *)
}.

(** The JSON document of [players.json]. *)
Record Store := {
  admins : list string;
  players : gmap string Player;
  session : Session
}.

Definition init_data : Store :=
  {| admins := [];
     players := ∅;
     session := {| active := false; participants := [] |} |}.

Definition is_admin (phone : string) (data : Store) : bool :=
  bool_decide (phone ∈ admins data).

(** In-place updates of the loaded document. *)
Definition set_admins (a : list string) (d : Store) : Store :=
  {| admins := a; players := players d; session := session d |}.
Definition set_players (p : gmap string Player) (d : Store) : Store :=
  {| admins := admins d; players := p; session := session d |}.
Definition set_active (b : bool) (d : Store) : Store :=
  {| admins := admins d; players := players d;
     session := {| active := b; participants := participants (session d) |} |}.
Definition set_participants (l : list string) (d : Store) : Store :=
  {| admins := admins d; players := players d;
     session := {| active := active (session d); participants := l |} |}.

(** ** The handler monad *)

Inductive PyExc :=
  | KeyError (key : string)
  | ValueError
  | IndexError.

Inductive Result (A : Type) :=
  | Ok (a : A)
  | Raise (e : PyExc).
Arguments Ok {A} a.
Arguments Raise {A} e.

(** What one request can read and write: the loaded document [data], the
    file [players.json] ([None] when it is absent or unreadable) and the
    body of the reply message ([None] until [reply.body] is called). *)
Record Proc := {
  data : Store;
  file : option Store;
  body : option string
}.

Definition M (A : Type) : Type := Proc → Result A * Proc.

Definition ret {A} (a : A) : M A := λ st, (Ok a, st).

Definition bind {A B} (m : M A) (f : A → M B) : M B :=
  λ st, match m st with
        | (Ok a, st') => f a st'
        | (Raise e, st') => (Raise e, st')
        end.

Definition raise {A} (e : PyExc) : M A := λ st, (Raise e, st).

Notation "'let*' x ':=' c1 'in' c2" := (bind c1 (λ x, c2))
  (at level 10, x name, c1 at level 100, c2 at level 200).
Notation "c1 >> c2" := (bind c1 (λ _, c2))
  (at level 100, c2 at level 200, right associativity).

Definition get_data : M Store := λ st, (Ok (data st), st).

Definition modify_data (f : Store → Store) : M unit :=
  λ st, (Ok tt, {| data := f (data st); file := file st; body := body st |}).

(** [save_data(data)]: the whole document replaces the file. *)
Definition save_data : M unit :=
  λ st, (Ok tt, {| data := data st; file := Some (data st); body := body st |}).

(** [reply.body(text)] *)
Definition reply_body (text : string) : M unit :=
  λ st, (Ok tt, {| data := data st; file := file st; body := Some text |}).

(** [load_data()]: the file's document, or a fresh one. *)
Definition load_data (f : option Store) : Store :=
  match f with
  | Some d => d
  | None => init_data
  end.

(** [d[k]] on a dict. *)
Definition dict_get {V} (d : gmap string V) (k : string) : M V :=
  match d !! k with
  | Some v => ret v
  | None => raise (KeyError k)
  end.

(** [l[i]] on a list, for [i >= 0]. *)
Definition list_get {V} (l : list V) (i : nat) : M V :=
  match l !! i with
  | Some v => ret v
  | None => raise IndexError
  end.

(** [l.remove(x)]: drops the first occurrence, raises when there is none. *)
Fixpoint remove_first (x : string) (l : list string) : option (list string) :=
  match l with
  | [] => None
  | y :: l' =>
      if decide (y = x) then Some l'
      else match remove_first x l' with
           | Some r => Some (y :: r)
           | None => None
           end
  end.

Definition py_remove (x : string) (l : list string) : M (list string) :=
  match remove_first x l with
  | Some l' => ret l'
  | None => raise ValueError
  end.

(** [k in d] on a dict. *)
Definition dict_contains {V} (d : gmap string V) (k : string) : bool :=
  match d !! k with
  | Some _ => true
  | None => false
  end.

(** ** format_teams *)

Definition team_emojis : list string :=
  ["🔴"; "🔵"; "🟢"; "🟡"; "🟣"; "🟠"; "⚫"; "⚪"].
Definition team_names : list string :=
  ["Red"; "Blue"; "Green"; "Yellow"; "Purple"; "Orange"; "Black"; "White"].

(** The line of one player, [f"  • {p['name']}\n"]. *)
Definition player_line (p : Player) : string := "  • " +:+ name p +:+ nl.

(** The body of [for i, team in enumerate(teams)], from index [i] on. *)
Fixpoint format_teams_loop (i : nat) (teams : list (list Player)) (text : string)
  : M string :=
  match teams with
  | [] => ret text
  | team :: teams' =>
      match team with
      | [] => format_teams_loop (S i) teams' text   (* skip empty teams *)
      | _ :: _ =>
          let* emoji := list_get team_emojis (i `mod` length team_emojis) in
          let* team_name := list_get team_names (i `mod` length team_names) in
          let text := text +:+ emoji +:+ " *" +:+ team_name +:+ " Team* ("
                        +:+ str_of_nat (length team) +:+ " players)" +:+ nl in
          let text := fold_left (λ text p, text +:+ player_line p) team text in
          format_teams_loop (S i) teams' (text +:+ nl)
      end
  end.

Definition format_teams (teams : list (list Player)) : M string :=
  let text := "⚽ *THIS WEEK'S TEAMS* ⚽" +:+ nl in
  let text := text +:+ str_repeat "=" 30 +:+ nl +:+ nl in
  format_teams_loop 0 teams text.

(** ** The webhook *)

(** The form fields of the POST; [None] when a field is absent. *)
Record Request := {
  Body : option string;
  From : option string;
  ProfileName : option string
}.

(** The TwiML answer: one message element, with or without a body. *)
Record Response := { message_body : option string }.

(** Runs the handler on the loaded document and returns the answer (or the
    exception that escaped) together with the file as it is left. *)
Definition run (m : M unit) (f : option Store) : Result Response * option Store :=
  match m {| data := load_data f; file := f; body := None |} with
  | (Ok _, st) => (Ok {| message_body := body st |}, file st)
  | (Raise e, st) => (Raise e, file st)
  end.

(** The name shown for a phone: [data["players"].get(phone, {"name": "Unknown"})]. *)
Definition player_info (d : Store) (phone : string) : Player :=
  default {| name := "Unknown" |} (players d !! phone).

Definition whatsapp_bot `{StrOps} (rng : Rng) (req : Request) (f : option Store)
  : Result Response * option Store :=
  let msg_body := py_strip (default "" (Body req)) in
  let sender := default "" (From req) in
  let profile_name := default "Player" (ProfileName req) in
  let msg := py_lower msg_body in
  run (
    if String.prefix "/addadmin" msg then
      let* d := get_data in
      if negb (is_admin sender d) && (length (admins d) =? 0) then
        modify_data (λ d, set_admins (admins d ++ [sender]) d) >>
        save_data >>
        reply_body "👑 You are now an admin!"
      else if is_admin sender d then
        reply_body ("✅ You're already an admin!" +:+ nl +:+ nl +:+ "Admin commands:" +:+ nl
                    +:+ "/start - Start selection" +:+ nl
                    +:+ "/end - Create random teams" +:+ nl
                    +:+ "/status - View current status" +:+ nl
                    +:+ "/reset - Reset session")
      else
        reply_body "❌ Only existing admins can add new admins"
    else if String.eqb msg "/start" then
      let* d := get_data in
      if negb (is_admin sender d) then
        reply_body "❌ Only admins can start selection"
      else
        modify_data (set_active true) >>
        modify_data (set_participants []) >>
        save_data >>
        reply_body ("🎮 *TEAM SELECTION STARTED!*" +:+ nl +:+ nl
                    +:+ "Reply with:" +:+ nl
                    +:+ "• *in* - Join this week" +:+ nl
                    +:+ "• *out* - Skip this week" +:+ nl +:+ nl
                    +:+ "Admin will announce teams later!")
    else if String.eqb msg "/end" then
      let* d := get_data in
      if negb (is_admin sender d) then
        reply_body "❌ Only admins can end selection"
      else if negb (active (session d)) then
        reply_body "❌ No active session. Use /start first"
      else
        let participants := participants (session d) in
        match participants with
        | [] => reply_body "❌ No players have joined yet!"
        | _ :: _ =>
            let player_list := player_info d <$> participants in
            let teams := create_teams rng player_list in
            let* text := format_teams teams in
            let result := "🎲 *RANDOM TEAM SELECTION*" +:+ nl +:+ nl +:+ text in
            let result := result +:+ "Total Players: "
                            +:+ str_of_nat (length player_list) +:+ nl in
            let result := result +:+ "Teams Created: " +:+ str_of_nat (length teams) in
            reply_body result >>
            modify_data (set_active false) >>
            save_data
        end
    else if String.eqb msg "/status" then
      let* d := get_data in
      if negb (is_admin sender d) then
        reply_body "❌ Admin only command"
      else
        let session := session d in
        let status := if active session then "🟢 ACTIVE" else "🔴 INACTIVE" in
        let participant_count := length (participants session) in
        let status_msg := "📊 *SESSION STATUS*" +:+ nl +:+ nl in
        let status_msg := status_msg +:+ "Status: " +:+ status +:+ nl in
        let status_msg := status_msg +:+ "Players In: "
                            +:+ str_of_nat participant_count +:+ nl +:+ nl in
        let status_msg :=
          if 0 <? participant_count then
            fold_left (λ text phone, text +:+ player_line (player_info d phone))
              (participants session) (status_msg +:+ "Participants:" +:+ nl)
          else status_msg in
        reply_body status_msg
    else if String.eqb msg "/reset" then
      let* d := get_data in
      if negb (is_admin sender d) then
        reply_body "❌ Only admins can reset"
      else
        modify_data (set_active false) >>
        modify_data (set_participants []) >>
        save_data >>
        reply_body "🔄 Session reset. Use /start to begin new selection"
    else if String.eqb msg "in" then
      let* d := get_data in
      if negb (active (session d)) then
        reply_body "❌ No active selection. Wait for admin to /start"
      else
        (if negb (dict_contains (players d) sender) then
           modify_data (λ d, set_players (<[sender := {| name := profile_name |}]> (players d)) d)
         else ret tt) >>
        let* d := get_data in
        if negb (bool_decide (sender ∈ participants (session d))) then
          modify_data (λ d, set_participants (participants (session d) ++ [sender]) d) >>
          save_data >>
          let* d := get_data in
          let* p := dict_get (players d) sender in
          reply_body ("✅ " +:+ name p +:+ " is IN!" +:+ nl
                      +:+ "Current count: "
                      +:+ str_of_nat (length (participants (session d))) +:+ " players")
        else
          let* p := dict_get (players d) sender in
          reply_body ("ℹ️ You're already in, " +:+ name p +:+ "!")
    else if String.eqb msg "out" then
      let* d := get_data in
      if negb (active (session d)) then
        reply_body "❌ No active selection"
      else
        if bool_decide (sender ∈ participants (session d)) then
          let* l := py_remove sender (participants (session d)) in
          modify_data (set_participants l) >>
          save_data >>
          let* d := get_data in
          let player_name :=
            match players d !! sender with
            | Some p => name p
            | None => profile_name
            end in
          reply_body ("❌ " +:+ player_name +:+ " is OUT" +:+ nl
                      +:+ "Current count: "
                      +:+ str_of_nat (length (participants (session d))) +:+ " players")
        else
          reply_body "ℹ️ You weren't in the list"
    else if String.eqb msg "/help" then
      let* d := get_data in
      let help_text := "⚽ *FOOTBALL BOT COMMANDS*" +:+ nl +:+ nl in
      let help_text := help_text +:+ "*Everyone:*" +:+ nl in
      let help_text := help_text +:+ "• in - Join this week" +:+ nl in
      let help_text := help_text +:+ "• out - Skip this week" +:+ nl +:+ nl in
      let help_text :=
        if is_admin sender d then
          help_text +:+ "*Admin Only:*" +:+ nl
            +:+ "• /start - Start selection" +:+ nl
            +:+ "• /end - Create random teams" +:+ nl
            +:+ "• /status - View status" +:+ nl
            +:+ "• /reset - Reset session"
        else help_text in
      reply_body help_text
    else
      (* Unknown command *)
      if String.prefix "/" msg then
        reply_body "❓ Unknown command. Send /help for commands"
      else ret tt
  ) f.

(** ** Vocabulary of the statements *)

(** The three values the handler reads from a request. *)
Definition msg_of `{StrOps} (req : Request) : string :=
  py_lower (py_strip (default "" (Body req))).
Definition sender_of (req : Request) : string := default "" (From req).
Definition profile_name_of (req : Request) : string := default "Player" (ProfileName req).

(** A normal return with the given message body. *)
Definition replies (text : string) : Result Response :=
  Ok {| message_body := Some text |}.

(** [s in text] on Python strings. *)
Definition contains (text s : string) : Prop :=
  ∃ pre post, text = pre +:+ s +:+ post.

(** The texts the dispatcher recognises: the /addadmin prefix and the
    seven exact commands. *)
Definition known_command (msg : string) : bool :=
  String.prefix "/addadmin" msg
  || bool_decide (msg ∈ ["/start"; "/end"; "/status"; "/reset"; "in"; "out"; "/help"]).

(** The reply to /addadmin from an admin. *)
Definition already_admin_text : string :=
  "✅ You're already an admin!" +:+ nl +:+ nl +:+ "Admin commands:" +:+ nl
  +:+ "/start - Start selection" +:+ nl
  +:+ "/end - Create random teams" +:+ nl
  +:+ "/status - View current status" +:+ nl
  +:+ "/reset - Reset session".

(** [upsert]: the players dict after the first statement of the "in"
    branch. *)
Definition players_after_in (sender profile_name : string) (d : Store)
  : gmap string Player :=
  if dict_contains (players d) sender then players d
  else <[sender := {| name := profile_name |}]> (players d).

(** The documents a request of [sender] can write, given the loaded one. *)
Inductive Effect (sender profile_name : string) (d : Store) : Store → Prop :=
  | E_bootstrap :
      admins d = [] →
      Effect sender profile_name d (set_admins (admins d ++ [sender]) d)
  | E_start :
      is_admin sender d = true →
      Effect sender profile_name d (set_participants [] (set_active true d))
  | E_end :
      is_admin sender d = true →
      active (session d) = true →
      Effect sender profile_name d (set_active false d)
  | E_reset :
      is_admin sender d = true →
      Effect sender profile_name d (set_participants [] (set_active false d))
  | E_join :
      active (session d) = true →
      sender ∉ participants (session d) →
      Effect sender profile_name d
        (set_participants (participants (session d) ++ [sender])
           (set_players (players_after_in sender profile_name d) d))
  | E_leave l' :
      active (session d) = true →
      remove_first sender (participants (session d)) = Some l' →
      Effect sender profile_name d (set_participants l' d).

(** The webhook called once per request, each call on the file the
    previous one left. *)
Fixpoint serve `{StrOps} (reqs : list (Rng * Request)) (f : option Store)
  : list (Result Response) * option Store :=
  match reqs with
  | [] => ([], f)
  | (rng, req) :: reqs' =>
      let r := whatsapp_bot rng req f in
      let rs := serve reqs' r.2 in
      (r.1 :: rs.1, rs.2)
  end.

(** ["".join(l)] *)
Definition str_concat (l : list string) : string := foldr String.append "" l.

(** The heading [format_teams] writes for the team at index [i]. *)
Definition team_heading (i : nat) (team : list Player) : string :=
  default "" (team_emojis !! (i `mod` 8)) +:+ " *"
  +:+ default "" (team_names !! (i `mod` 8)) +:+ " Team* ("
  +:+ str_of_nat (length team) +:+ " players)" +:+ nl.

(** The text of the reply to a successful /start. *)
Definition started_text : string :=
  "🎮 *TEAM SELECTION STARTED!*" +:+ nl +:+ nl
  +:+ "Reply with:" +:+ nl
  +:+ "• *in* - Join this week" +:+ nl
  +:+ "• *out* - Skip this week" +:+ nl +:+ nl
  +:+ "Admin will announce teams later!".

(** One session from an empty directory: the first /addadmin, /start,
    "in" twice from the same phone, /end. *)
Definition scenario : list (Rng * Request) :=
  let say (phone text : string) : Rng * Request :=
    (λ k, k, {| Body := Some text; From := Some phone; ProfileName := Some "Alice" |}) in
  [say "S1" "/addadmin"; say "S1" "/start"; say "P1" "in"; say "P1" " IN ";
   say "S1" "/end"].

(** * Running the embedding *)

Example str_of_nat_13 : str_of_nat 13 = "13".
Proof. reflexivity. Qed.

Example create_teams_8 :
  create_teams (λ k, k) [1; 2; 3; 4; 5; 6; 7; 8]
  = [[7; 5; 6; 8; 4; 3]; [2; 1]].
Proof. vm_compute. reflexivity. Qed.

Example scenario_store :
  (@serve ascii_ops scenario None).2
  = Some {| admins := ["S1"];
            players := {[ "P1" := {| name := "Alice" |} ]};
            session := {| active := false; participants := ["P1"] |} |}.
Proof. vm_compute. reflexivity. Qed.

Example scenario_replies :
  (@serve ascii_ops scenario None).1 !! 2
  = Some (replies ("✅ Alice is IN!" +:+ nl +:+ "Current count: 1 players"))
  ∧ (@serve ascii_ops scenario None).1 !! 3
    = Some (replies "ℹ️ You're already in, Alice!").
Proof. split; vm_compute; reflexivity. Qed.

(** * Team partitioning *)

Section Partition.
Context {A : Type}.
Implicit Types (x l : list A) (rng : Rng).

Lemma swap_perm x i j : swap x i j ≡ₚ x.
Proof.
  unfold swap.
  destruct (x !! i) as [xi|] eqn:Hi; [|done].
  destruct (x !! j) as [xj|] eqn:Hj; [|done].
  by apply Permutation_insert_swap.
Qed.

Lemma shuffle_loop_perm rng k i x : shuffle_loop rng k i x ≡ₚ x.
Proof.
  revert k x. induction i as [|i IH]; intros k x; simpl; [done|].
  rewrite IH. apply swap_perm.
Qed.

Lemma shuffle_perm rng x : shuffle rng x ≡ₚ x.
Proof. apply shuffle_loop_perm. Qed.

Lemma length_shuffle rng x : length (shuffle rng x) = length x.
Proof. apply Permutation_length, shuffle_perm. Qed.

Lemma concat_chunks l c m :
  concat ((λ k, take c (drop (k * c) l)) <$> seq 0 m) = take (m * c) l.
Proof.
  induction m as [|m IH]; [done|].
  rewrite seq_S, fmap_app, concat_app, IH. simpl.
  rewrite app_nil_r, take_take_drop. f_equal. lia.
Qed.
End Partition.

Lemma ceil_div_0 c : 0 < c → ceil_div 0 c = 0.
Proof. intros Hc. unfold ceil_div. apply Nat.div_small. lia. Qed.

Lemma ceil_div_step d c : 0 < c → 0 < d → ceil_div d c = S (ceil_div (d - c) c).
Proof.
  intros Hc Hd. unfold ceil_div.
  destruct (decide (d ≤ c)) as [Hle|Hgt].
  - replace (d - c + c - 1) with (c - 1) by lia.
    rewrite (Nat.div_small (c - 1)) by lia.
    symmetry. apply (Nat.div_unique _ _ 1 (d - 1)); lia.
  - replace (d + c - 1) with ((d - c + c - 1) + 1 * c) by lia.
    rewrite Nat.div_add by lia. lia.
Qed.

(** [ceil_div n c] is the least number of [c]-sized blocks that cover [n]. *)
Lemma ceil_div_spec n c :
  0 < c → n ≤ ceil_div n c * c ∧ (0 < n → (ceil_div n c - 1) * c < n).
Proof.
  intros Hc. unfold ceil_div.
  pose proof (Nat.div_mod_eq (n + c - 1) c) as Hdm.
  pose proof (Nat.mod_upper_bound (n + c - 1) c) as Hub.
  split; [nia|]. intros Hn.
  assert (1 ≤ (n + c - 1) / c) by (apply Nat.div_le_lower_bound; lia).
  nia.
Qed.

Lemma range_loop_closed fuel i stop step :
  0 < step → stop - i ≤ fuel →
  range_loop fuel i stop step
  = (λ k, i + k * step) <$> seq 0 (ceil_div (stop - i) step).
Proof.
  intros Hstep. revert i.
  induction fuel as [|fuel IH]; intros i Hfuel; simpl.
  - replace (stop - i) with 0 by lia. by rewrite ceil_div_0.
  - destruct (Nat.ltb_spec i stop) as [Hlt|Hge].
    + rewrite (ceil_div_step (stop - i)) by lia. simpl.
      rewrite IH by lia. rewrite <- fmap_S_seq, <- list_fmap_compose.
      f_equal; [lia|].
      replace (stop - i - step) with (stop - (i + step)) by lia.
      apply list_fmap_ext. intros _ k _. simpl. lia.
    + replace (stop - i) with 0 by lia. by rewrite ceil_div_0.
Qed.

(** The teams, in closed form: consecutive blocks of the shuffled list. *)
Lemma create_teams_chunks {A} (rng : Rng) (players : list A) :
  create_teams rng players
  = (λ k, take PLAYERS_PER_TEAM (drop (k * PLAYERS_PER_TEAM) (shuffle rng players)))
      <$> seq 0 (ceil_div (length players) PLAYERS_PER_TEAM).
Proof.
  unfold create_teams.
  destruct (Nat.eqb_spec (length players) 0) as [Hz|Hnz].
  - rewrite Hz. by rewrite ceil_div_0 by (unfold PLAYERS_PER_TEAM; lia).
  - unfold py_range. rewrite range_loop_closed by (unfold PLAYERS_PER_TEAM; lia).
    rewrite Nat.sub_0_r, <- list_fmap_compose.
    apply list_fmap_ext. intros _ k _. simpl. unfold slice.
    f_equal. lia.
Qed.

Lemma create_teams_concat_perm {A} (rng : Rng) (players : list A) :
  concat (create_teams rng players) ≡ₚ players.
Proof.
  rewrite create_teams_chunks, concat_chunks.
  rewrite take_ge; [apply shuffle_perm|].
  rewrite length_shuffle.
  apply (ceil_div_spec (length players) PLAYERS_PER_TEAM).
  unfold PLAYERS_PER_TEAM. lia.
Qed.

(** C1. [create_teams] on [n] players returns [ceil(n/6)] teams whose
    concatenation is a permutation of the input; every team but the last
    has exactly 6 players; when [n > 0] the last team has
    [n - 6 * (ceil(n/6) - 1)] players, a number between 1 and 6; and the
    empty input gives no team at all. *)
Theorem create_teams_partition {A} (rng : Rng) (players : list A) :
  let n := length players in
  let c := PLAYERS_PER_TEAM in
  let teams := create_teams rng players in
  length teams = ceil_div n c
  ∧ concat teams ≡ₚ players
  ∧ (∀ k team, teams !! k = Some team → S k < length teams → length team = c)
  ∧ (0 < n → ∃ team, last teams = Some team
               ∧ length team = n - c * (ceil_div n c - 1)
               ∧ 1 ≤ length team ≤ c)
  ∧ (n = 0 → teams = []).
Proof.
  intros n c teams.
  assert (Hc : 0 < c) by (unfold c, PLAYERS_PER_TEAM; lia).
  destruct (ceil_div_spec n c Hc) as [Hcover Htight].
  assert (Hlen : length teams = ceil_div n c).
  { unfold teams. rewrite create_teams_chunks. by rewrite length_fmap, length_seq. }
  assert (Hteam : ∀ k team, teams !! k = Some team →
            k < ceil_div n c ∧ length team = c `min` (n - k * c)).
  { intros k team Hk. unfold teams in Hk. rewrite create_teams_chunks in Hk.
    apply list_lookup_fmap_Some in Hk as (k' & -> & Hk').
    apply lookup_seq in Hk' as [-> Hlt]. simpl. split; [done|].
    rewrite length_take, length_drop, length_shuffle. done. }
  split; [done|]. split; [|split; [|split]].
  - apply create_teams_concat_perm.
  - intros k team Hk Hlast. destruct (Hteam k team Hk) as [_ ->].
    rewrite Hlen in Hlast.
    assert (Hn : 0 < n).
    { destruct (decide (n = 0)) as [Hz|]; [|lia].
      rewrite Hz, ceil_div_0 in Hlast; lia. }
    specialize (Htight Hn). nia.
  - intros Hn. specialize (Htight Hn).
    assert (Hpos : 0 < ceil_div n c) by nia.
    destruct (last teams) as [team|] eqn:Hl.
    + exists team. split; [done|].
      rewrite last_lookup, Hlen in Hl.
      destruct (Hteam _ _ Hl) as [_ ->].
      replace (Nat.pred (ceil_div n c)) with (ceil_div n c - 1) by lia.
      nia.
    + apply last_None, length_zero_iff_nil in Hl. lia.
  - intros Hn. apply length_zero_iff_nil. rewrite Hlen, Hn. by apply ceil_div_0.
Qed.

(** The docstring's 13 players: teams of 6, 6 and 1. *)
Lemma create_teams_partition_witness :
  let players := seq 0 13 in
  length <$> create_teams (λ k, 7 * k + 3) players = [6; 6; 1]
  ∧ ∃ team, last (create_teams (λ k, 7 * k + 3) players) = Some team
            ∧ length team = 13 - 6 * (ceil_div 13 6 - 1)
            ∧ 1 ≤ length team ≤ 6.
Proof.
  split; [reflexivity|].
  apply (create_teams_partition (λ k, 7 * k + 3) (seq 0 13)).
  simpl. lia.
Defined.

(** * Texts *)

Lemma str_app_assoc (a b c : string) : (a +:+ b) +:+ c = a +:+ (b +:+ c).
Proof.
  induction a as [|x a IH]; [done|].
  change (String x ((a +:+ b) +:+ c) = String x (a +:+ (b +:+ c))).
  by rewrite IH.
Qed.

Lemma str_app_nil_r (s : string) : s +:+ "" = s.
Proof.
  induction s as [|x s IH]; [done|].
  change (String x (s +:+ "") = String x s). by rewrite IH.
Qed.

Lemma contains_app_r text u s : contains text s → contains (text +:+ u) s.
Proof.
  intros (pre & post & ->). exists pre, (post +:+ u).
  by rewrite !str_app_assoc.
Qed.

Lemma contains_app_l text u s : contains text s → contains (u +:+ text) s.
Proof.
  intros (pre & post & ->). exists (u +:+ pre), post.
  by rewrite !str_app_assoc.
Qed.

Lemma contains_end text s : contains (text +:+ s) s.
Proof.
  exists text, "". by rewrite str_app_nil_r.
Qed.

Section Lines.
Context {V : Type} (g : V → string).

Lemma contains_fold_keep (l : list V) text s :
  contains text s → contains (fold_left (λ text x, text +:+ g x) l text) s.
Proof.
  revert text. induction l as [|x l IH]; intros text Hc; simpl; [done|].
  by apply IH, contains_app_r.
Qed.

Lemma contains_fold_elem (l : list V) text x :
  x ∈ l → contains (fold_left (λ text x, text +:+ g x) l text) (g x).
Proof.
  revert text. induction l as [|y l IH]; intros text Hx; simpl.
  - by apply elem_of_nil in Hx.
  - apply elem_of_cons in Hx as [->|Hx].
    + apply contains_fold_keep, contains_end.
    + by apply IH.
Qed.
End Lines.

(** [format_teams] never raises: the label index [i % 8] is in range.  Its
    text extends the text so far and has the line of every player of
    every team. *)
Lemma format_teams_loop_ok teams i text st :
  ∃ text', format_teams_loop i teams text st = (Ok text', st)
    ∧ (∀ s, contains text s → contains text' s)
    ∧ (∀ team p, team ∈ teams → p ∈ team → contains text' (player_line p)).
Proof.
  revert i text.
  induction teams as [|team teams IH]; intros i text; cbn [format_teams_loop].
  - exists text. split; [done|]. split; [done|].
    intros team p Hin. by apply elem_of_nil in Hin.
  - destruct team as [|q team].
    + destruct (IH (S i) text) as (text' & Hrun & Hkeep & Hline).
      exists text'. split; [done|]. split; [done|].
      intros team p [->|Hin]%elem_of_cons Hp; [by apply elem_of_nil in Hp|eauto].
    + unfold bind, list_get.
      destruct (lookup_lt_is_Some_2 team_emojis (i `mod` length team_emojis))
        as [emoji ->]; [apply Nat.mod_upper_bound; done|].
      destruct (lookup_lt_is_Some_2 team_names (i `mod` length team_names))
        as [team_name ->]; [apply Nat.mod_upper_bound; done|].
      unfold ret.
      match goal with |- context [format_teams_loop (S i) teams ?t st] =>
        destruct (IH (S i) t) as (text' & Hrun & Hkeep & Hline) end.
      exists text'. split; [done|]. split.
      * intros s Hs. apply Hkeep, contains_app_r.
        apply (contains_fold_keep player_line).
        by apply contains_app_r.
      * intros team' p [->|Hin]%elem_of_cons Hp; [|eauto].
        apply Hkeep, contains_app_r.
        by apply (contains_fold_elem player_line).
Qed.

Lemma format_teams_ok teams st :
  ∃ text, format_teams teams st = (Ok text, st)
    ∧ (∀ team p, team ∈ teams → p ∈ team → contains text (player_line p)).
Proof.
  unfold format_teams.
  match goal with |- context [format_teams_loop 0 teams ?t st] =>
    destruct (format_teams_loop_ok teams 0 t st) as (text & Hrun & _ & Hline) end.
  by exists text.
Qed.

(** * The command interpreter *)

(** Unfolds the handler at a request whose command text is known. *)
Ltac run_command Hmsg :=
  unfold msg_of in Hmsg;
  unfold whatsapp_bot; cbv zeta; rewrite Hmsg; simpl;
  unfold run, bind, get_data, modify_data, save_data, reply_body, ret; simpl;
  change (default "" (From ?r)) with (sender_of r);
  change (default "Player" (ProfileName ?r)) with (profile_name_of r).

(** C4. While the session is inactive, "in" and "out" are answered with
    the no-active-selection denial and the file is not written: the
    participants list and the whole store stay as they were. *)
Theorem inactive_join_leave_denied `{StrOps} (rng : Rng) (req : Request)
    (f : option Store) :
  active (session (load_data f)) = false →
  (msg_of req = "in" →
     whatsapp_bot rng req f
     = (replies "❌ No active selection. Wait for admin to /start", f))
  ∧ (msg_of req = "out" →
     whatsapp_bot rng req f = (replies "❌ No active selection", f)).
Proof.
  intros Hinactive. split; intros Hmsg; run_command Hmsg.
  all: by rewrite Hinactive.
Qed.

Lemma inactive_join_leave_denied_witness :
  let f := Some {| admins := ["S1"]; players := ∅;
                   session := {| active := false; participants := ["P1"] |} |} in
  let req := {| Body := Some " IN "; From := Some "P2"; ProfileName := Some "Bo" |} in
  @whatsapp_bot ascii_ops (λ k, k) req f
  = (replies "❌ No active selection. Wait for admin to /start", f).
Proof.
  intros f req.
  apply (@inactive_join_leave_denied ascii_ops (λ k, k) req f); reflexivity.
Defined.

(** C7. A sender who is not an admin gets the command's own denial for
    /start, /end, /status and /reset, and the file is not written. *)
Theorem non_admin_denied `{StrOps} (rng : Rng) (req : Request) (f : option Store) :
  is_admin (sender_of req) (load_data f) = false →
  (msg_of req = "/start" →
     whatsapp_bot rng req f = (replies "❌ Only admins can start selection", f))
  ∧ (msg_of req = "/end" →
     whatsapp_bot rng req f = (replies "❌ Only admins can end selection", f))
  ∧ (msg_of req = "/status" →
     whatsapp_bot rng req f = (replies "❌ Admin only command", f))
  ∧ (msg_of req = "/reset" →
     whatsapp_bot rng req f = (replies "❌ Only admins can reset", f)).
Proof.
  intros Hna. repeat split; intros Hmsg; run_command Hmsg.
  all: by rewrite Hna.
Qed.

Lemma non_admin_denied_witness :
  let f := Some {| admins := ["S1"]; players := ∅;
                   session := {| active := true; participants := ["P1"] |} |} in
  let req := {| Body := Some "/End"; From := Some "P1"; ProfileName := None |} in
  @whatsapp_bot ascii_ops (λ k, k) req f
  = (replies "❌ Only admins can end selection", f).
Proof.
  intros f req.
  apply (@non_admin_denied ascii_ops (λ k, k) req f); reflexivity.
Defined.

(** C9. /end from an admin while the session is active but nobody has
    joined is answered with the no-players error; the file is not written,
    so the session stays active. *)
Theorem end_empty_roster `{StrOps} (rng : Rng) (req : Request) (f : option Store) :
  msg_of req = "/end" →
  is_admin (sender_of req) (load_data f) = true →
  active (session (load_data f)) = true →
  participants (session (load_data f)) = [] →
  whatsapp_bot rng req f = (replies "❌ No players have joined yet!", f)
  ∧ active (session (load_data (whatsapp_bot rng req f).2)) = true.
Proof.
  intros Hmsg Hadm Hact Hnone.
  assert (Hrun : whatsapp_bot rng req f
                 = (replies "❌ No players have joined yet!", f)).
  { run_command Hmsg. by rewrite Hadm, Hact, Hnone. }
  by rewrite Hrun.
Qed.

Lemma end_empty_roster_witness :
  let f := Some {| admins := ["S1"]; players := ∅;
                   session := {| active := true; participants := [] |} |} in
  let req := {| Body := Some "/end"; From := Some "S1"; ProfileName := None |} in
  @whatsapp_bot ascii_ops (λ k, k) req f
  = (replies "❌ No players have joined yet!", f)
  ∧ active (session (load_data (@whatsapp_bot ascii_ops (λ k, k) req f).2)) = true.
Proof.
  intros f req.
  apply (@end_empty_roster ascii_ops (λ k, k) req f); reflexivity.
Defined.

(** C8. A text that matches no command is answered with the unknown-command
    notice when it starts with a slash, and otherwise the reply message is
    left without a body; neither case writes the file. *)
Theorem unknown_command `{StrOps} (rng : Rng) (req : Request) (f : option Store) :
  known_command (msg_of req) = false →
  whatsapp_bot rng req f
  = (Ok {| message_body :=
             if String.prefix "/" (msg_of req)
             then Some "❓ Unknown command. Send /help for commands"
             else None |}, f).
Proof.
  unfold known_command. intros [Hpre Hmem]%orb_false_elim.
  apply bool_decide_eq_false in Hmem.
  unfold whatsapp_bot. cbv zeta. fold (msg_of req).
  rewrite Hpre.
  repeat match goal with
  | |- context [String.eqb (msg_of req) ?c] =>
      destruct (String.eqb_spec (msg_of req) c) as [Heq|_];
      [exfalso; apply Hmem; rewrite Heq; set_solver|]
  end.
  unfold run. by destruct (String.prefix "/" (msg_of req)).
Qed.

Lemma unknown_command_witness :
  let req := {| Body := Some "Hello"; From := Some "P1"; ProfileName := None |} in
  @whatsapp_bot ascii_ops (λ k, k) req None
  = (Ok {| message_body := None |}, None).
Proof.
  intros req.
  apply (@unknown_command ascii_ops (λ k, k) req None). reflexivity.
Defined.

(** What a successful /end does: it replies with the rendered teams,
    which show the line of every player dealt into a team, and writes the
    document with only the active flag cleared. *)
Lemma end_runs `{StrOps} (rng : Rng) (req : Request) (f : option Store) :
  msg_of req = "/end" →
  is_admin (sender_of req) (load_data f) = true →
  active (session (load_data f)) = true →
  participants (session (load_data f)) ≠ [] →
  ∃ result,
    whatsapp_bot rng req f = (replies result, Some (set_active false (load_data f)))
    ∧ ∀ p, p ∈ player_info (load_data f) <$> participants (session (load_data f)) →
           contains result (player_line p).
Proof.
  intros Hmsg Hadm Hact Hsome. run_command Hmsg.
  rewrite Hadm, Hact. simpl.
  destruct (participants (session (load_data f))) as [|phone l] eqn:Hl; [done|].
  set (player_list := player_info (load_data f) <$> phone :: l).
  set (st := {| data := load_data f; file := f; body := None |}).
  destruct (format_teams_ok (create_teams rng player_list) st)
    as (text & Hrun & Hline).
  unfold player_list in Hrun |- *. simpl in Hrun |- *. rewrite Hrun.
  eexists. split; [reflexivity|].
  intros p Hp.
  assert (Hperm := create_teams_concat_perm rng player_list).
  assert (Hin : p ∈ concat (create_teams rng player_list)) by by rewrite Hperm.
  apply list_elem_of_In, in_concat in Hin as (team & Hteam & Hpt).
  apply list_elem_of_In in Hteam, Hpt.
  do 2 apply contains_app_r. do 3 apply contains_app_l. eauto.
Qed.

(** C5. A successful /end (admin, active session, somebody joined) clears
    the active flag and writes the document back with the participants
    list, the admins and the players exactly as they were. *)
Theorem end_keeps_roster `{StrOps} (rng : Rng) (req : Request) (f : option Store) :
  msg_of req = "/end" →
  is_admin (sender_of req) (load_data f) = true →
  active (session (load_data f)) = true →
  participants (session (load_data f)) ≠ [] →
  let d := load_data f in
  let d' := load_data (whatsapp_bot rng req f).2 in
  (∃ result, (whatsapp_bot rng req f).1 = replies result)
  ∧ (whatsapp_bot rng req f).2 = Some d'
  ∧ active (session d') = false
  ∧ participants (session d') = participants (session d)
  ∧ admins d' = admins d
  ∧ players d' = players d.
Proof.
  intros Hmsg Hadm Hact Hsome d d'.
  destruct (end_runs rng req f Hmsg Hadm Hact Hsome) as (result & Hrun & _).
  unfold d'. rewrite Hrun. simpl. eauto 10.
Qed.

Lemma end_keeps_roster_witness :
  let f := Some {| admins := ["S1"]; players := {[ "P1" := {| name := "Alice" |} ]};
                   session := {| active := true; participants := ["P1"] |} |} in
  let req := {| Body := Some "/end"; From := Some "S1"; ProfileName := None |} in
  let d' := load_data (@whatsapp_bot ascii_ops (λ k, k) req f).2 in
  active (session d') = false ∧ participants (session d') = ["P1"].
Proof.
  intros f req d'.
  destruct (@end_keeps_roster ascii_ops (λ k, k) req f)
    as (_ & _ & Hoff & Hsame & _); [reflexivity..|done|].
  split; [exact Hoff|exact Hsame].
Defined.

(** * One request as a step of the store *)

Lemma remove_first_elem x l : x ∈ l → is_Some (remove_first x l).
Proof.
  induction l as [|y l IH]; intros Hx; simpl.
  - by apply elem_of_nil in Hx.
  - destruct (decide (y = x)) as [|Hne]; [by eexists|].
    apply elem_of_cons in Hx as [->|Hx]; [done|].
    destruct (IH Hx) as [r ->]. by eexists.
Qed.

Lemma remove_first_sublist x l l' : remove_first x l = Some l' → sublist l' l.
Proof.
  revert l'. induction l as [|y l IH]; intros l'; simpl; [done|].
  destruct (decide (y = x)) as [|Hne].
  - intros [= ->]. by apply sublist_cons.
  - destruct (remove_first x l) as [r|]; [|done].
    intros [= <-]. by apply sublist_skip, IH.
Qed.

(** Every request returns normally, and either leaves the file alone or
    writes one of the documents of [Effect]. *)
Lemma whatsapp_bot_step `{StrOps} (rng : Rng) (req : Request) (f : option Store) :
  ∃ resp,
    whatsapp_bot rng req f = (Ok resp, f)
    ∨ ∃ d', whatsapp_bot rng req f = (Ok resp, Some d')
            ∧ Effect (sender_of req) (profile_name_of req) (load_data f) d'.
Proof.
  unfold whatsapp_bot. cbv zeta.
  change (default "" (From req)) with (sender_of req).
  change (default "Player" (ProfileName req)) with (profile_name_of req).
  generalize (py_lower (py_strip (default "" (Body req)))). intros msg.
  set (sender := sender_of req). set (profile_name := profile_name_of req).
  set (d := load_data f).
  unfold run, bind, get_data, modify_data, save_data, reply_body, ret.
  fold d. cbn [data file body].
  destruct (String.prefix "/addadmin" msg).
  { simpl. destruct (is_admin sender d) eqn:Hadm; simpl; [eauto|].
    destruct (Nat.eqb_spec (length (admins d)) 0) as [Hz|Hnz]; simpl; [|eauto].
    apply length_zero_iff_nil in Hz.
    eexists. right. eexists. split; [reflexivity|]. by apply E_bootstrap. }
  destruct (String.eqb msg "/start").
  { simpl. destruct (is_admin sender d) eqn:Hadm; simpl; [|eauto].
    eexists. right. eexists. split; [reflexivity|]. by apply E_start. }
  destruct (String.eqb msg "/end").
  { simpl. destruct (is_admin sender d) eqn:Hadm; simpl; [|eauto].
    destruct (active (session d)) eqn:Hact; simpl; [|eauto].
    destruct (participants (session d)) as [|phone l] eqn:Hl; [eauto|].
    match goal with |- context [format_teams ?teams ?st] =>
      destruct (format_teams_ok teams st) as (text & -> & _) end.
    cbn [data file body].
    eexists. right. eexists. split; [reflexivity|]. by apply E_end. }
  destruct (String.eqb msg "/status").
  { simpl. destruct (is_admin sender d); simpl; eauto. }
  destruct (String.eqb msg "/reset").
  { simpl. destruct (is_admin sender d) eqn:Hadm; simpl; [|eauto].
    eexists. right. eexists. split; [reflexivity|]. by apply E_reset. }
  destruct (String.eqb msg "in").
  { simpl. destruct (active (session d)) eqn:Hact; simpl; [|eauto].
    assert (Heff : sender ∉ participants (session d) → ∀ d',
      d' = set_participants (participants (session d) ++ [sender])
             (set_players (players_after_in sender profile_name d) d) →
      Effect sender profile_name d d').
    { intros Hout d' ->. by apply E_join. }
    unfold dict_get.
    destruct (dict_contains (players d) sender) eqn:Hdc; simpl.
    - (* a known phone: the record is left alone *)
      assert (Hget : ∃ p, players d !! sender = Some p).
      { unfold dict_contains in Hdc. destruct (players d !! sender); [eauto|done]. }
      destruct Hget as [p Hget].
      destruct (decide (sender ∈ participants (session d))) as [Hin|Hout].
      + rewrite (bool_decide_eq_true_2 _ Hin). simpl. rewrite Hget. eauto.
      + rewrite (bool_decide_eq_false_2 _ Hout). simpl. rewrite Hget. simpl.
        eexists. right. eexists. split; [reflexivity|].
        apply Heff; [done|]. unfold players_after_in. by rewrite Hdc.
    - (* a new phone: registered under the profile name *)
      destruct (decide (sender ∈ participants (session d))) as [Hin|Hout].
      + rewrite (bool_decide_eq_true_2 _ Hin). simpl.
        rewrite lookup_insert_eq. eauto.
      + rewrite (bool_decide_eq_false_2 _ Hout). simpl.
        rewrite lookup_insert_eq. simpl.
        eexists. right. eexists. split; [reflexivity|].
        apply Heff; [done|]. unfold players_after_in. by rewrite Hdc. }
  destruct (String.eqb msg "out").
  { simpl. destruct (active (session d)) eqn:Hact; simpl; [|eauto].
    destruct (decide (sender ∈ participants (session d))) as [Hin|Hout].
    - rewrite (bool_decide_eq_true_2 _ Hin).
      destruct (remove_first_elem _ _ Hin) as [l' Hl'].
      unfold py_remove. rewrite Hl'. simpl.
      eexists. right. eexists. split; [reflexivity|]. by apply E_leave.
    - rewrite (bool_decide_eq_false_2 _ Hout). simpl. eauto. }
  destruct (String.eqb msg "/help"); [simpl; eauto|].
  destruct (String.prefix "/" msg); simpl; eauto.
Qed.

(** ** Joining *)

Lemma players_after_in_sender sender profile_name d :
  players_after_in sender profile_name d !! sender
  = Some (default {| name := profile_name |} (players d !! sender)).
Proof.
  unfold players_after_in, dict_contains.
  destruct (players d !! sender) as [p|] eqn:Hp; simpl; [done|].
  apply lookup_insert_eq.
Qed.

Lemma players_after_in_other sender profile_name d phone :
  phone ≠ sender →
  players_after_in sender profile_name d !! phone = players d !! phone.
Proof.
  intros Hne. unfold players_after_in.
  destruct (dict_contains (players d) sender); [done|].
  by apply lookup_insert_ne.
Qed.

Lemma players_after_in_known sender profile_name d p :
  players d !! sender = Some p → players_after_in sender profile_name d = players d.
Proof. intros Hp. unfold players_after_in, dict_contains. by rewrite Hp. Qed.

(** The two outcomes of "in" while the session is active.  The name in
    the reply is the stored one, or the profile name for a phone that has
    no record yet. *)
Lemma join_runs `{StrOps} (rng : Rng) (req : Request) (f : option Store) :
  msg_of req = "in" →
  active (session (load_data f)) = true →
  let d := load_data f in
  let sender := sender_of req in
  let shown := name (default {| name := profile_name_of req |} (players d !! sender)) in
  whatsapp_bot rng req f =
    if bool_decide (sender ∈ participants (session d))
    then (replies ("ℹ️ You're already in, " +:+ shown +:+ "!"), f)
    else (replies ("✅ " +:+ shown +:+ " is IN!" +:+ nl +:+ "Current count: "
                   +:+ str_of_nat (length (participants (session d) ++ [sender]))
                   +:+ " players"),
          Some (set_participants (participants (session d) ++ [sender])
                  (set_players (players_after_in sender (profile_name_of req) d) d))).
Proof.
  intros Hmsg Hact d sender shown. run_command Hmsg.
  fold d sender in Hact |- *. rewrite Hact. simpl.
  unfold dict_get, shown, players_after_in, dict_contains.
  destruct (players d !! sender) as [p|] eqn:Hp; simpl.
  - destruct (bool_decide (sender ∈ participants (session d))); simpl;
      rewrite Hp; simpl; [done|]. by destruct d.
  - destruct (bool_decide (sender ∈ participants (session d))); simpl;
      rewrite lookup_insert_eq; done.
Qed.

(** C6. "in" during an active session keeps every stored player record as
    it is, whatever profile name comes with the request: a phone that has
    a record keeps its name, the reply to a known sender shows the stored
    name, and the only phone that can gain a record is the sender. *)
Theorem join_keeps_names `{StrOps} (rng : Rng) (req : Request) (f : option Store) :
  msg_of req = "in" →
  active (session (load_data f)) = true →
  let d := load_data f in
  let sender := sender_of req in
  let r := whatsapp_bot rng req f in
  (∀ phone p, players d !! phone = Some p → players (load_data r.2) !! phone = Some p)
  ∧ (∀ phone, players d !! phone = None → is_Some (players (load_data r.2) !! phone) →
       phone = sender)
  ∧ (∀ p, players d !! sender = Some p →
       r.1 = replies ("ℹ️ You're already in, " +:+ name p +:+ "!")
       ∨ r.1 = replies ("✅ " +:+ name p +:+ " is IN!" +:+ nl +:+ "Current count: "
                        +:+ str_of_nat (length (participants (session d) ++ [sender]))
                        +:+ " players")).
Proof.
  intros Hmsg Hact d sender r.
  pose proof (join_runs rng req f Hmsg Hact) as Hrun. simpl in Hrun.
  fold d sender r in Hrun.
  destruct (bool_decide (sender ∈ participants (session d))) eqn:Hin;
    rewrite Hrun; simpl; fold d.
  - split; [done|]. split.
    + intros phone Hnone [p Hp]. congruence.
    + intros p Hp. left. by rewrite Hp.
  - split; [|split].
    + intros phone p Hp. destruct (decide (phone = sender)) as [->|Hne].
      * by rewrite (players_after_in_known _ _ _ _ Hp).
      * by rewrite players_after_in_other.
    + intros phone Hnone [p Hp]. destruct (decide (phone = sender)); [done|].
      rewrite players_after_in_other in Hp by done. congruence.
    + intros p Hp. right. by rewrite Hp.
Qed.

Lemma join_keeps_names_witness :
  let f := Some {| admins := ["S1"]; players := {[ "P1" := {| name := "Alice" |} ]};
                   session := {| active := true; participants := [] |} |} in
  let req := {| Body := Some "in"; From := Some "P1"; ProfileName := Some "Alicia" |} in
  players (load_data (@whatsapp_bot ascii_ops (λ k, k) req f).2) !! "P1"
  = Some {| name := "Alice" |}.
Proof.
  intros f req.
  destruct (@join_keeps_names ascii_ops (λ k, k) req f) as (Hkeep & _);
    [reflexivity..|].
  apply Hkeep. reflexivity.
Defined.

(** ** Invariants along sequences of requests *)

Lemma effect_NoDup sender profile_name d d' :
  Effect sender profile_name d d' →
  NoDup (participants (session d)) → NoDup (participants (session d')).
Proof.
  intros Heff Hnd. destruct Heff; simpl; try done; try apply NoDup_nil_2.
  - apply NoDup_app. split; [done|]. split; [|apply NoDup_singleton].
    intros x Hx ->%list_elem_of_singleton. done.
  - eapply sublist_NoDup; [done|]. by eapply remove_first_sublist.
Qed.

Lemma effect_admins sender profile_name d d' :
  Effect sender profile_name d d' → admins d ≠ [] → admins d' = admins d.
Proof. intros Heff Hne. by destruct Heff. Qed.

Section Invariants.
Context `{StrOps}.

Lemma whatsapp_bot_NoDup rng req f :
  NoDup (participants (session (load_data f))) →
  NoDup (participants (session (load_data (whatsapp_bot rng req f).2))).
Proof.
  intros Hnd.
  destruct (whatsapp_bot_step rng req f) as [resp [->|(d' & -> & Heff)]]; [done|].
  simpl. by eapply effect_NoDup.
Qed.

Lemma serve_NoDup reqs f :
  NoDup (participants (session (load_data f))) →
  NoDup (participants (session (load_data (serve reqs f).2))).
Proof.
  revert f. induction reqs as [|[rng req] reqs IH]; intros f Hnd; simpl; [done|].
  by apply IH, whatsapp_bot_NoDup.
Qed.

Lemma whatsapp_bot_admins rng req f :
  admins (load_data f) ≠ [] →
  admins (load_data (whatsapp_bot rng req f).2) = admins (load_data f).
Proof.
  intros Hne.
  destruct (whatsapp_bot_step rng req f) as [resp [->|(d' & -> & Heff)]]; [done|].
  simpl. by eapply effect_admins.
Qed.

Lemma serve_admins reqs f :
  admins (load_data f) ≠ [] →
  admins (load_data (serve reqs f).2) = admins (load_data f).
Proof.
  revert f. induction reqs as [|[rng req] reqs IH]; intros f Hne; simpl; [done|].
  rewrite IH; rewrite whatsapp_bot_admins; done.
Qed.
End Invariants.

(** ** Admin registration *)

(** The three outcomes of /addadmin. *)
Lemma addadmin_runs `{StrOps} (rng : Rng) (req : Request) (f : option Store) :
  String.prefix "/addadmin" (msg_of req) = true →
  let d := load_data f in
  let sender := sender_of req in
  whatsapp_bot rng req f =
    if is_admin sender d then (replies already_admin_text, f)
    else if decide (admins d = []) then
      (replies "👑 You are now an admin!", Some (set_admins [sender] d))
    else (replies "❌ Only existing admins can add new admins", f).
Proof.
  intros Hpre d sender. unfold whatsapp_bot. cbv zeta. fold (msg_of req).
  rewrite Hpre. unfold run, bind, get_data, modify_data, save_data, reply_body.
  simpl. fold d. change (default "" (From req)) with sender.
  destruct (is_admin sender d); simpl; [done|].
  destruct (decide (admins d = [])) as [Hz|Hnz].
  - rewrite Hz. simpl. by rewrite Hz.
  - destruct (admins d); done.
Qed.

(** C3. /addadmin makes the caller an admin exactly when the admins list
    is empty; an existing admin is told so and a non-admin of a store that
    has admins is refused, both without a write.  After a bootstrap the
    admins list stays the one caller through any further requests, and
    every later /addadmin gets one of the two other answers. *)
Theorem addadmin_bootstrap `{StrOps} (rng : Rng) (req : Request) (f : option Store) :
  String.prefix "/addadmin" (msg_of req) = true →
  let d := load_data f in
  let sender := sender_of req in
  let r := whatsapp_bot rng req f in
  (admins d = [] →
     r = (replies "👑 You are now an admin!", Some (set_admins [sender] d)))
  ∧ (r.1 = replies "👑 You are now an admin!" ↔ admins d = [])
  ∧ (sender ∈ admins d → r = (replies already_admin_text, f))
  ∧ (admins d ≠ [] → sender ∉ admins d →
     r = (replies "❌ Only existing admins can add new admins", f))
  ∧ (admins d = [] →
     ∀ reqs rng' req', String.prefix "/addadmin" (msg_of req') = true →
       let f' := (serve reqs r.2).2 in
       admins (load_data f') = [sender]
       ∧ whatsapp_bot rng' req' f'
         = (if decide (sender_of req' = sender) then replies already_admin_text
            else replies "❌ Only existing admins can add new admins", f')).
Proof.
  intros Hpre d sender r.
  pose proof (addadmin_runs rng req f Hpre) as Hrun. simpl in Hrun.
  fold d sender r in Hrun.
  assert (Hfirst : admins d = [] →
            r = (replies "👑 You are now an admin!", Some (set_admins [sender] d))).
  { intros Hz. rewrite Hrun. unfold is_admin. rewrite Hz.
    rewrite bool_decide_eq_false_2 by apply not_elem_of_nil.
    by rewrite decide_True. }
  split; [done|]. split; [|split; [|split]].
  - split; [|by intros ->%Hfirst].
    rewrite Hrun. destruct (is_admin sender d); [intros [=]|].
    destruct (decide (admins d = [])); [done|intros [=]].
  - intros Hin. rewrite Hrun. unfold is_admin. by rewrite bool_decide_eq_true_2.
  - intros Hne Hout. rewrite Hrun. unfold is_admin.
    rewrite bool_decide_eq_false_2 by done. by rewrite decide_False.
  - intros Hz reqs rng' req' Hpre' f'.
    assert (Hadm : admins (load_data f') = [sender]).
    { unfold f'. rewrite serve_admins; rewrite (Hfirst Hz); done. }
    split; [done|].
    rewrite (addadmin_runs rng' req' f' Hpre'). unfold is_admin. rewrite Hadm.
    destruct (decide (sender_of req' = sender)) as [->|Hne].
    + rewrite bool_decide_eq_true_2; [done|]. by apply list_elem_of_singleton.
    + rewrite bool_decide_eq_false_2; [|by intros ?%list_elem_of_singleton].
      by rewrite decide_False.
Qed.

Lemma addadmin_bootstrap_witness :
  let req := {| Body := Some "/addadmin please"; From := Some "S1";
                ProfileName := None |} in
  let req' := {| Body := Some "/AddAdmin"; From := Some "S2";
                 ProfileName := None |} in
  let r := @whatsapp_bot ascii_ops (λ k, k) req None in
  r = (replies "👑 You are now an admin!", Some (set_admins ["S1"] init_data))
  ∧ @whatsapp_bot ascii_ops (λ k, k) req' r.2
    = (replies "❌ Only existing admins can add new admins", r.2).
Proof.
  intros req req' r.
  destruct (@addadmin_bootstrap ascii_ops (λ k, k) req None) as (Hfirst & _ & _ & _ & Hlater);
    [reflexivity|].
  split; [by apply Hfirst|].
  destruct (Hlater eq_refl [] (λ k, k) req') as [_ Hrun]; [reflexivity|].
  exact Hrun.
Defined.

(** ** Joining twice *)

(** C2 as stated fails when the sender is already on the roster: the
    first "in" then appends nothing and reports already-in. *)
Lemma join_twice_counterexample :
  let f := Some {| admins := ["S1"]; players := {[ "P1" := {| name := "Alice" |} ]};
                   session := {| active := true; participants := ["P1"] |} |} in
  let req := {| Body := Some "in"; From := Some "P1"; ProfileName := Some "Alice" |} in
  let r1 := @whatsapp_bot ascii_ops (λ k, k) req f in
  active (session (load_data f)) = true
  ∧ r1 = (replies "ℹ️ You're already in, Alice!", f)
  ∧ ¬ (participants (session (load_data r1.2))
         = participants (session (load_data f)) ++ ["P1"]
       ∧ r1.1 = replies ("✅ Alice is IN!" +:+ nl +:+ "Current count: 2 players")).
Proof.
  intros f req r1. split; [reflexivity|]. split; [reflexivity|].
  intros [Happ _]. vm_compute in Happ. discriminate Happ.
Qed.

(** C2, amended.  With the session active, two "in" in a row from a
    sender who was not on the roster: the first appends the sender and
    reports the new count, the second reports already-in and writes
    nothing, and the sender is on the roster exactly once.  From a sender
    who was already on it, both report already-in and nothing is written.
    A roster without duplicates stays so under every request, so none ever
    appears from the initial store. *)
Theorem join_twice `{StrOps} (rng1 rng2 : Rng) (req1 req2 : Request)
    (f : option Store) :
  msg_of req1 = "in" → msg_of req2 = "in" →
  sender_of req2 = sender_of req1 →
  active (session (load_data f)) = true →
  let d := load_data f in
  let X := sender_of req1 in
  let r1 := whatsapp_bot rng1 req1 f in
  let r2 := whatsapp_bot rng2 req2 r1.2 in
  let shown := name (default {| name := profile_name_of req1 |} (players d !! X)) in
  (X ∉ participants (session d) →
     participants (session (load_data r1.2)) = participants (session d) ++ [X]
     ∧ r1.1 = replies ("✅ " +:+ shown +:+ " is IN!" +:+ nl +:+ "Current count: "
                       +:+ str_of_nat (length (participants (session d)) + 1)
                       +:+ " players")
     ∧ r2 = (replies ("ℹ️ You're already in, " +:+ shown +:+ "!"), r1.2)
     ∧ count_occ string_dec (participants (session (load_data r2.2))) X = 1)
  ∧ (X ∈ participants (session d) →
     r1 = (replies ("ℹ️ You're already in, " +:+ shown +:+ "!"), f)
     ∧ r2.2 = f
     ∧ ∃ shown', r2.1 = replies ("ℹ️ You're already in, " +:+ shown' +:+ "!"))
  ∧ (NoDup (participants (session d)) →
     NoDup (participants (session (load_data r2.2))))
  ∧ (∀ reqs, NoDup (participants (session (load_data (serve reqs None).2)))).
Proof.
  intros Hmsg1 Hmsg2 Hsame Hact d X r1 r2 shown.
  pose proof (join_runs rng1 req1 f Hmsg1 Hact) as Hrun1. simpl in Hrun1.
  fold d X shown r1 in Hrun1.
  split; [|split; [|split]].
  - intros Hout. rewrite (bool_decide_eq_false_2 _ Hout) in Hrun1.
    assert (Hact1 : active (session (load_data r1.2)) = true) by by rewrite Hrun1.
    pose proof (join_runs rng2 req2 _ Hmsg2 Hact1) as Hrun2. simpl in Hrun2.
    fold r2 in Hrun2. rewrite Hsame in Hrun2. fold X in Hrun2.
    assert (Hparts : participants (session (load_data r1.2))
                     = participants (session d) ++ [X]) by by rewrite Hrun1.
    assert (Hname : players (load_data r1.2) !! X = Some {| name := shown |}).
    { rewrite Hrun1. simpl. rewrite players_after_in_sender. unfold shown.
      by destruct (default _ _). }
    rewrite Hparts, Hname in Hrun2.
    rewrite bool_decide_eq_true_2 in Hrun2 by set_solver. simpl in Hrun2.
    split; [done|]. split.
    { rewrite Hrun1. simpl. by rewrite length_app. }
    split; [done|].
    rewrite Hrun2. simpl. rewrite Hparts, count_occ_app. simpl.
    rewrite (proj1 (count_occ_not_In string_dec _ X)) by by rewrite <- list_elem_of_In.
    by destruct (string_dec X X).
  - intros Hin. rewrite (bool_decide_eq_true_2 _ Hin) in Hrun1.
    split; [done|].
    pose proof (join_runs rng2 req2 f Hmsg2 Hact) as Hrun2. simpl in Hrun2.
    rewrite Hsame in Hrun2. fold d X in Hrun2.
    rewrite (bool_decide_eq_true_2 _ Hin) in Hrun2.
    unfold r2. rewrite Hrun1. simpl. rewrite Hrun2. simpl. eauto.
  - intros Hnd. by do 2 apply whatsapp_bot_NoDup.
  - intros reqs. apply serve_NoDup. simpl. apply NoDup_nil_2.
Qed.

Lemma join_twice_witness :
  let f := Some {| admins := ["S1"]; players := ∅;
                   session := {| active := true; participants := ["P0"] |} |} in
  let req := {| Body := Some "in"; From := Some "P1"; ProfileName := Some "Alice" |} in
  let r1 := @whatsapp_bot ascii_ops (λ k, k) req f in
  let r2 := @whatsapp_bot ascii_ops (λ k, k) req r1.2 in
  participants (session (load_data r1.2)) = ["P0"; "P1"]
  ∧ r1.1 = replies ("✅ Alice is IN!" +:+ nl +:+ "Current count: 2 players")
  ∧ r2 = (replies "ℹ️ You're already in, Alice!", r1.2)
  ∧ count_occ string_dec (participants (session (load_data r2.2))) "P1" = 1.
Proof.
  intros f req r1 r2.
  destruct (@join_twice ascii_ops (λ k, k) (λ k, k) req req f) as (Hnew & _);
    [reflexivity..|].
  apply Hnew. apply (bool_decide_eq_false_1 _). reflexivity.
Defined.

(** ** Rendering participants *)

(** /status from an admin lists the line of every participant. *)
Lemma status_runs `{StrOps} (rng : Rng) (req : Request) (f : option Store) :
  msg_of req = "/status" →
  is_admin (sender_of req) (load_data f) = true →
  ∃ text,
    whatsapp_bot rng req f = (replies text, f)
    ∧ ∀ phone, phone ∈ participants (session (load_data f)) →
               contains text (player_line (player_info (load_data f) phone)).
Proof.
  intros Hmsg Hadm. run_command Hmsg. rewrite Hadm. simpl.
  eexists. split; [reflexivity|]. intros phone Hin.
  destruct (participants (session (load_data f))) as [|phone' l];
    [by apply elem_of_nil in Hin|].
  cbn [length Nat.ltb Nat.leb].
  by apply (contains_fold_elem (λ phone, player_line (player_info (load_data f) phone))).
Qed.

Lemma player_info_unknown d phone :
  players d !! phone = None → player_line (player_info d phone) = "  • Unknown" +:+ nl.
Proof. intros Hnone. unfold player_info. by rewrite Hnone. Qed.

(** C10. No request makes the handler raise, whatever the store holds;
    and a participant without a player record is shown as "Unknown" both
    in the teams of /end and in the roster of /status. *)
Theorem unknown_participant_rendered `{StrOps} (rng : Rng) (req : Request)
    (f : option Store) (phone : string) :
  let d := load_data f in
  (∃ resp, (whatsapp_bot rng req f).1 = Ok resp)
  ∧ (is_admin (sender_of req) d = true →
     phone ∈ participants (session d) →
     players d !! phone = None →
     msg_of req = "/status" ∨ (msg_of req = "/end" ∧ active (session d) = true) →
     ∃ text, (whatsapp_bot rng req f).1 = replies text
             ∧ contains text ("  • Unknown" +:+ nl)).
Proof.
  intros d. split.
  - destruct (whatsapp_bot_step rng req f) as [resp [->|(d' & -> & _)]]; eauto.
  - intros Hadm Hin Hnone [Hmsg|[Hmsg Hact]].
    + destruct (status_runs rng req f Hmsg Hadm) as (text & -> & Hline).
      exists text. split; [done|].
      rewrite <- (player_info_unknown d phone) by done. by apply Hline.
    + assert (Hsome : participants (session d) ≠ []).
      { intros Hnil. rewrite Hnil in Hin. by apply elem_of_nil in Hin. }
      destruct (end_runs rng req f Hmsg Hadm Hact Hsome) as (text & -> & Hline).
      exists text. split; [done|].
      rewrite <- (player_info_unknown d phone) by done.
      apply Hline. by apply list_elem_of_fmap_2.
Qed.

Lemma unknown_participant_rendered_witness :
  let f := Some {| admins := ["S1"]; players := {[ "P0" := {| name := "Bob" |} ]};
                   session := {| active := true; participants := ["P0"; "P1"] |} |} in
  let req := {| Body := Some "/end"; From := Some "S1"; ProfileName := None |} in
  ∃ text, (@whatsapp_bot ascii_ops (λ k, k) req f).1 = replies text
          ∧ contains text ("  • Unknown" +:+ nl).
Proof.
  intros f req.
  destruct (@unknown_participant_rendered ascii_ops (λ k, k) req f "P1")
    as [_ Hshown].
  apply Hshown; [reflexivity| |reflexivity|right; split; reflexivity].
  apply (bool_decide_eq_true_1 _). reflexivity.
Defined.

(** * Further properties of the handler *)

(** ** Starting and resetting *)

(** An admin's /start opens the session with an empty roster and leaves
    admins and players alone; the previous roster is discarded, and a
    second /start changes nothing more. *)
Theorem start_opens_session `{StrOps} (rng rng' : Rng) (req req' : Request)
    (f : option Store) :
  msg_of req = "/start" →
  is_admin (sender_of req) (load_data f) = true →
  let d := load_data f in
  let r := whatsapp_bot rng req f in
  r.1 = replies started_text
  ∧ (∃ d', r.2 = Some d'
           ∧ session d' = {| active := true; participants := [] |}
           ∧ admins d' = admins d ∧ players d' = players d)
  ∧ (msg_of req' = "/start" → sender_of req' = sender_of req →
     whatsapp_bot rng' req' r.2 = r).
Proof.
  intros Hmsg Hadm d r.
  assert (Hrun : r = (replies started_text,
                      Some (set_participants [] (set_active true d)))).
  { unfold r. run_command Hmsg. by rewrite Hadm. }
  rewrite Hrun. simpl. split; [done|]. split; [eauto|].
  intros Hmsg' Hsame. run_command Hmsg'. rewrite Hsame.
  change (is_admin (sender_of req) (set_participants [] (set_active true d)))
    with (is_admin (sender_of req) d).
  fold d in Hadm. by rewrite Hadm.
Qed.

Lemma start_opens_session_witness :
  let f := Some {| admins := ["S1"]; players := {[ "P1" := {| name := "Alice" |} ]};
                   session := {| active := false; participants := ["P1"] |} |} in
  let req := {| Body := Some "/START"; From := Some "S1"; ProfileName := None |} in
  ∃ d', (@whatsapp_bot ascii_ops (λ k, k) req f).2 = Some d'
        ∧ session d' = {| active := true; participants := [] |}
        ∧ admins d' = ["S1"]
        ∧ players d' = {[ "P1" := {| name := "Alice" |} ]}.
Proof.
  intros f req.
  destruct (@start_opens_session ascii_ops (λ k, k) (λ k, k) req req f)
    as (_ & Hstore & _); [reflexivity..|].
  exact Hstore.
Defined.

(** An admin's /reset closes the session and empties the roster, leaving
    admins and players alone; after it "in" and "out" are refused. *)
Theorem reset_closes_session `{StrOps} (rng rng' : Rng) (req req' : Request)
    (f : option Store) :
  msg_of req = "/reset" →
  is_admin (sender_of req) (load_data f) = true →
  let d := load_data f in
  let r := whatsapp_bot rng req f in
  r.1 = replies "🔄 Session reset. Use /start to begin new selection"
  ∧ (∃ d', r.2 = Some d'
           ∧ session d' = {| active := false; participants := [] |}
           ∧ admins d' = admins d ∧ players d' = players d)
  ∧ (msg_of req' = "in" →
     whatsapp_bot rng' req' r.2
     = (replies "❌ No active selection. Wait for admin to /start", r.2))
  ∧ (msg_of req' = "out" →
     whatsapp_bot rng' req' r.2 = (replies "❌ No active selection", r.2)).
Proof.
  intros Hmsg Hadm d r.
  assert (Hrun : r = (replies "🔄 Session reset. Use /start to begin new selection",
                      Some (set_participants [] (set_active false d)))).
  { unfold r. run_command Hmsg. by rewrite Hadm. }
  rewrite Hrun. simpl. split; [done|]. split; [eauto|].
  split; intros Hmsg'; by run_command Hmsg'.
Qed.

Lemma reset_closes_session_witness :
  let f := Some {| admins := ["S1"]; players := ∅;
                   session := {| active := true; participants := ["P1"; "P2"] |} |} in
  let req := {| Body := Some "/reset"; From := Some "S1"; ProfileName := None |} in
  ∃ d', (@whatsapp_bot ascii_ops (λ k, k) req f).2 = Some d'
        ∧ session d' = {| active := false; participants := [] |}
        ∧ admins d' = ["S1"] ∧ players d' = ∅.
Proof.
  intros f req.
  destruct (@reset_closes_session ascii_ops (λ k, k) (λ k, k) req req f)
    as (_ & Hstore & _); [reflexivity..|].
  exact Hstore.
Defined.

(** ** Leaving *)

Lemma remove_first_split x l l' :
  remove_first x l = Some l' →
  ∃ l1 l2, l = l1 ++ x :: l2 ∧ (x ∉ l1) ∧ l' = l1 ++ l2.
Proof.
  revert l'. induction l as [|y l IH]; intros l'; simpl; [done|].
  destruct (decide (y = x)) as [->|Hne].
  - intros [= ->]. exists [], l'. split; [done|]. split; [apply not_elem_of_nil|done].
  - destruct (remove_first x l) as [r|]; [|done].
    intros [= <-]. destruct (IH r eq_refl) as (l1 & l2 & -> & Hout & ->).
    exists (y :: l1), l2. split; [done|]. split; [|done].
    apply not_elem_of_cons. split; [congruence|done].
Qed.

Lemma remove_first_snoc x l : x ∉ l → remove_first x (l ++ [x]) = Some l.
Proof.
  induction l as [|y l IH]; intros Hout; simpl.
  - by rewrite decide_True.
  - apply not_elem_of_cons in Hout as [Hne Hout].
    rewrite decide_False by congruence. by rewrite IH.
Qed.

(** "out" while the session is active.  A sender on the roster is taken
    off it at the first place it occurs, the rest keeps its order, and the
    reply shows the stored name (the profile name for a phone without a
    record) and the new count; players and admins are not touched.  A
    sender who is not on the roster is told so and nothing is written. *)
Theorem leave_runs `{StrOps} (rng : Rng) (req : Request) (f : option Store) :
  msg_of req = "out" →
  active (session (load_data f)) = true →
  let d := load_data f in
  let sender := sender_of req in
  let r := whatsapp_bot rng req f in
  let shown := match players d !! sender with
               | Some p => name p
               | None => profile_name_of req
               end in
  (sender ∈ participants (session d) →
     ∃ l1 l2, participants (session d) = l1 ++ sender :: l2 ∧ (sender ∉ l1)
       ∧ r = (replies ("❌ " +:+ shown +:+ " is OUT" +:+ nl +:+ "Current count: "
                       +:+ str_of_nat (length (participants (session d)) - 1)
                       +:+ " players"),
              Some (set_participants (l1 ++ l2) d)))
  ∧ (sender ∉ participants (session d) →
     r = (replies "ℹ️ You weren't in the list", f)).
Proof.
  intros Hmsg Hact d sender r shown. split.
  - intros Hin.
    destruct (remove_first_elem _ _ Hin) as [l' Hl'].
    destruct (remove_first_split _ _ _ Hl') as (l1 & l2 & Hl & Hout & ->).
    exists l1, l2. split; [done|]. split; [done|].
    unfold r. run_command Hmsg. fold d sender in Hact |- *.
    rewrite Hact. simpl. rewrite (bool_decide_eq_true_2 _ Hin).
    unfold py_remove. rewrite Hl'. simpl.
    replace (length (participants (session d)) - 1) with (length (l1 ++ l2)); [done|].
    rewrite Hl, !length_app. simpl. lia.
  - intros Hout. unfold r. run_command Hmsg. fold d sender in Hact |- *.
    rewrite Hact. simpl. by rewrite (bool_decide_eq_false_2 _ Hout).
Qed.

Lemma leave_runs_witness :
  let d := {| admins := ["S1"]; players := {[ "P2" := {| name := "Bea" |} ]};
              session := {| active := true; participants := ["P1"; "P2"; "P3"] |} |} in
  let req := {| Body := Some "Out"; From := Some "P2"; ProfileName := Some "B" |} in
  ∃ l1 l2, ["P1"; "P2"; "P3"] = l1 ++ "P2" :: l2 ∧ ("P2" ∉ l1)
    ∧ @whatsapp_bot ascii_ops (λ k, k) req (Some d)
      = (replies ("❌ Bea is OUT" +:+ nl +:+ "Current count: 2 players"),
         Some (set_participants (l1 ++ l2) d)).
Proof.
  intros d req.
  destruct (@leave_runs ascii_ops (λ k, k) req (Some d)) as [Hon _];
    [reflexivity..|].
  apply Hon. apply (bool_decide_eq_true_1 _). reflexivity.
Defined.

(** "in" followed by "out" from the same phone, which was not on the
    roster, gives the roster back as it was; the session stays active and
    the admins are the same. *)
Theorem join_then_leave `{StrOps} (rng1 rng2 : Rng) (req1 req2 : Request)
    (f : option Store) :
  msg_of req1 = "in" → msg_of req2 = "out" →
  sender_of req2 = sender_of req1 →
  active (session (load_data f)) = true →
  sender_of req1 ∉ participants (session (load_data f)) →
  let d := load_data f in
  let r1 := whatsapp_bot rng1 req1 f in
  let r2 := whatsapp_bot rng2 req2 r1.2 in
  session (load_data r2.2) = session d
  ∧ admins (load_data r2.2) = admins d
  ∧ ∃ shown, r2.1 = replies ("❌ " +:+ shown +:+ " is OUT" +:+ nl +:+ "Current count: "
                             +:+ str_of_nat (length (participants (session d)))
                             +:+ " players").
Proof.
  intros Hmsg1 Hmsg2 Hsame Hact Hout d r1 r2.
  pose proof (join_runs rng1 req1 f Hmsg1 Hact) as Hrun1. simpl in Hrun1.
  fold d r1 in Hrun1. rewrite (bool_decide_eq_false_2 _ Hout) in Hrun1.
  unfold r2. rewrite Hrun1. cbn [snd].
  run_command Hmsg2. rewrite Hsame. fold d in Hact, Hout |- *. rewrite Hact. simpl.
  rewrite bool_decide_eq_true_2 by set_solver.
  unfold py_remove. rewrite (remove_first_snoc _ _ Hout). simpl.
  split; [|split; [done|eauto]].
  destruct d as [a p [b l]]. simpl in *. by rewrite Hact.
Qed.

Lemma join_then_leave_witness :
  let f := Some {| admins := ["S1"]; players := ∅;
                   session := {| active := true; participants := ["P0"] |} |} in
  let req1 := {| Body := Some "in"; From := Some "P1"; ProfileName := Some "Al" |} in
  let req2 := {| Body := Some "out"; From := Some "P1"; ProfileName := Some "Al" |} in
  let r1 := @whatsapp_bot ascii_ops (λ k, k) req1 f in
  session (load_data (@whatsapp_bot ascii_ops (λ k, k) req2 r1.2).2)
  = {| active := true; participants := ["P0"] |}.
Proof.
  intros f req1 req2 r1.
  destruct (@join_then_leave ascii_ops (λ k, k) (λ k, k) req1 req2 f)
    as (Hsession & _); [reflexivity..| |exact Hsession].
  apply (bool_decide_eq_false_1 _). reflexivity.
Defined.

(** ** Commands that only read *)

Lemma fold_left_append {V} (g : V → string) (l : list V) (text : string) :
  fold_left (λ text x, text +:+ g x) l text = text +:+ str_concat (g <$> l).
Proof.
  revert text. induction l as [|x l IH]; intros text; simpl.
  - by rewrite str_app_nil_r.
  - by rewrite IH, str_app_assoc.
Qed.

(** /status and /help answer every sender, on every store, without
    writing the file. *)
Theorem status_help_read_only `{StrOps} (rng : Rng) (req : Request)
    (f : option Store) :
  msg_of req = "/status" ∨ msg_of req = "/help" →
  ∃ text, whatsapp_bot rng req f = (replies text, f).
Proof.
  intros [Hmsg|Hmsg]; run_command Hmsg.
  - destruct (is_admin (sender_of req) (load_data f)); simpl; eauto.
  - eauto.
Qed.

Lemma status_help_read_only_witness :
  let f := Some {| admins := ["S1"]; players := ∅;
                   session := {| active := true; participants := ["P1"] |} |} in
  let req := {| Body := Some "/help"; From := Some "P9"; ProfileName := None |} in
  ∃ text, @whatsapp_bot ascii_ops (λ k, k) req f = (replies text, f).
Proof.
  intros f req.
  apply (@status_help_read_only ascii_ops (λ k, k) req f). right. reflexivity.
Defined.

(** The text of /status for an admin: the flag, the number of
    participants and, when there are any, one line per participant in the
    order of the roster, each with the stored name or "Unknown". *)
Theorem status_text `{StrOps} (rng : Rng) (req : Request) (f : option Store) :
  msg_of req = "/status" →
  is_admin (sender_of req) (load_data f) = true →
  let d := load_data f in
  let l := participants (session d) in
  whatsapp_bot rng req f
  = (replies ("📊 *SESSION STATUS*" +:+ nl +:+ nl
              +:+ "Status: " +:+ (if active (session d) then "🟢 ACTIVE" else "🔴 INACTIVE")
              +:+ nl
              +:+ "Players In: " +:+ str_of_nat (length l) +:+ nl +:+ nl
              +:+ match l with
                  | [] => ""
                  | _ :: _ => "Participants:" +:+ nl
                              +:+ str_concat ((λ phone, player_line (player_info d phone)) <$> l)
                  end), f).
Proof.
  intros Hmsg Hadm d l. run_command Hmsg. fold d l in Hadm |- *.
  rewrite Hadm. simpl. unfold replies. do 3 f_equal.
  destruct l as [|phone l'] eqn:Hl.
  - simpl. by rewrite !str_app_assoc.
  - cbn [length Nat.ltb Nat.leb].
    rewrite (fold_left_append (λ phone, player_line (player_info d phone))).
    by rewrite !str_app_assoc.
Qed.

Lemma status_text_witness :
  let f := Some {| admins := ["S1"]; players := {[ "P1" := {| name := "Alice" |} ]};
                   session := {| active := false; participants := ["P2"; "P1"] |} |} in
  let req := {| Body := Some "/status"; From := Some "S1"; ProfileName := None |} in
  @whatsapp_bot ascii_ops (λ k, k) req f
  = (replies ("📊 *SESSION STATUS*" +:+ nl +:+ nl +:+ "Status: 🔴 INACTIVE" +:+ nl
              +:+ "Players In: 2" +:+ nl +:+ nl +:+ "Participants:" +:+ nl
              +:+ "  • Unknown" +:+ nl +:+ "  • Alice" +:+ nl), f).
Proof.
  intros f req.
  apply (@status_text ascii_ops (λ k, k) req f); reflexivity.
Defined.

(** ** Teams *)

(** The teams are the consecutive blocks of six of the shuffled list: in
    order they spell it out again, team [k] is [shuffled[6k:6k+6]], and no
    team is empty. *)
Theorem create_teams_blocks {A} (rng : Rng) (players : list A) :
  let teams := create_teams rng players in
  concat teams = shuffle rng players
  ∧ (∀ k team, teams !! k = Some team →
       team = slice (shuffle rng players) (6 * k) (6 * k + 6))
  ∧ (∀ team, team ∈ teams → team ≠ []).
Proof.
  intros teams.
  assert (Hc : 0 < PLAYERS_PER_TEAM) by (unfold PLAYERS_PER_TEAM; lia).
  destruct (ceil_div_spec (length players) _ Hc) as [Hcover Htight].
  assert (Hteam : ∀ k team, teams !! k = Some team →
            k < ceil_div (length players) PLAYERS_PER_TEAM
            ∧ team = take 6 (drop (k * 6) (shuffle rng players))).
  { intros k team Hk. unfold teams in Hk. rewrite create_teams_chunks in Hk.
    apply list_lookup_fmap_Some in Hk as (k' & -> & Hk').
    by apply lookup_seq in Hk' as [-> Hlt]. }
  split; [|split].
  - unfold teams. rewrite create_teams_chunks, concat_chunks.
    apply take_ge. by rewrite length_shuffle.
  - intros k team Hk. destruct (Hteam k team Hk) as [_ ->].
    unfold slice. f_equal; [lia|f_equal; lia].
  - intros team [k Hk]%list_elem_of_lookup Hnil.
    destruct (Hteam k team Hk) as [Hlt Heq].
    assert (Hlen : length team = 6 `min` (length players - k * 6)).
    { by rewrite Heq, length_take, length_drop, length_shuffle. }
    rewrite Hnil in Hlen. cbn [length] in Hlen.
    assert (Hpos : 0 < length players).
    { destruct (decide (length players = 0)) as [Hz|]; [|lia].
      rewrite Hz, ceil_div_0 in Hlt; lia. }
    specialize (Htight Hpos).
    change PLAYERS_PER_TEAM with 6 in *.
    set (m := ceil_div (length players) 6) in *. nia.
Qed.

Lemma create_teams_blocks_witness :
  ∃ team, create_teams (λ k, 5 * k + 1) (seq 0 8) !! 1 = Some team
          ∧ team = slice (shuffle (λ k, 5 * k + 1) (seq 0 8)) 6 12.
Proof.
  destruct (create_teams_blocks (λ k, 5 * k + 1) (seq 0 8)) as (_ & Hblock & _).
  eexists. split; [reflexivity|].
  apply (Hblock 1). reflexivity.
Defined.

(** The headings written by the loop that starts at index [i]. *)
Lemma format_teams_loop_headings teams i text st :
  ∃ text', format_teams_loop i teams text st = (Ok text', st)
    ∧ (∀ s, contains text s → contains text' s)
    ∧ (∀ k team, teams !! k = Some team → team ≠ [] →
         contains text' (team_heading (i + k) team)).
Proof.
  revert i text.
  induction teams as [|team teams IH]; intros i text; cbn [format_teams_loop].
  - exists text. split; [done|]. split; [done|]. by intros [|k] team.
  - destruct team as [|q team].
    + destruct (IH (S i) text) as (text' & Hrun & Hkeep & Hhead).
      exists text'. split; [done|]. split; [done|].
      intros [|k] team' Hk Hne; simpl in Hk; [congruence|].
      replace (i + S k) with (S i + k) by lia. eauto.
    + unfold bind, list_get.
      change (length team_emojis) with 8. change (length team_names) with 8.
      destruct (lookup_lt_is_Some_2 team_emojis (i `mod` 8))
        as [emoji Hemoji]; [apply Nat.mod_upper_bound; done|].
      destruct (lookup_lt_is_Some_2 team_names (i `mod` 8))
        as [team_name Hname]; [apply Nat.mod_upper_bound; done|].
      rewrite Hemoji, Hname. unfold ret.
      match goal with |- context [format_teams_loop (S i) teams ?t st] =>
        destruct (IH (S i) t) as (text' & Hrun & Hkeep & Hhead) end.
      exists text'. split; [done|]. split.
      * intros s Hs. apply Hkeep, contains_app_r.
        apply (contains_fold_keep player_line). by apply contains_app_r.
      * intros [|k] team' Hk Hne; simpl in Hk.
        -- injection Hk as <-. apply Hkeep, contains_app_r.
           apply (contains_fold_keep player_line).
           unfold team_heading. rewrite Nat.add_0_r, Hemoji, Hname. simpl.
           apply contains_end.
        -- replace (i + S k) with (S i + k) by lia. eauto.
Qed.

(** [format_teams] returns for every list of teams without touching the
    store or the reply, however many teams there are: the label of team
    [k] is the one at [k mod 8], its heading shows the size of the team,
    and every player of the team has a line. *)
Theorem format_teams_labels (teams : list (list Player)) (st : Proc) :
  ∃ text, format_teams teams st = (Ok text, st)
    ∧ ∀ k team, teams !! k = Some team → team ≠ [] →
        contains text (team_heading k team)
        ∧ ∀ p, p ∈ team → contains text (player_line p).
Proof.
  destruct (format_teams_ok teams st) as (text & Hrun & Hline).
  exists text. split; [done|]. intros k team Hk Hne. split.
  - unfold format_teams in Hrun.
    match type of Hrun with format_teams_loop 0 teams ?t st = _ =>
      destruct (format_teams_loop_headings teams 0 t st) as (text' & Hrun' & _ & Hhead) end.
    rewrite Hrun in Hrun'. injection Hrun' as <-. by apply (Hhead k team).
  - intros p Hp. apply (Hline team p); [|done]. by eapply list_elem_of_lookup_2.
Qed.

Lemma format_teams_labels_witness :
  let one := [{| name := "A" |}] in
  let st := {| data := init_data; file := None; body := None |} in
  ∃ text, format_teams (replicate 9 one) st = (Ok text, st)
    ∧ contains text ("🔴 *Red Team* (1 players)" +:+ nl)
    ∧ contains text ("⚪ *White Team* (1 players)" +:+ nl).
Proof.
  intros one st.
  destruct (format_teams_labels (replicate 9 one) st) as (text & Hrun & Hlabel).
  exists text. split; [exact Hrun|]. split.
  - apply (Hlabel 8 one); [reflexivity|discriminate].
  - apply (Hlabel 7 one); [reflexivity|discriminate].
Defined.

(** ** Ending *)

(** The reply of a successful /end, around the text of [format_teams]. *)
Lemma end_text `{StrOps} (rng : Rng) (req : Request) (f : option Store) :
  msg_of req = "/end" →
  is_admin (sender_of req) (load_data f) = true →
  active (session (load_data f)) = true →
  participants (session (load_data f)) ≠ [] →
  let d := load_data f in
  let player_list := player_info d <$> participants (session d) in
  let teams := create_teams rng player_list in
  ∃ text,
    whatsapp_bot rng req f
    = (replies ((("🎲 *RANDOM TEAM SELECTION*" +:+ nl +:+ nl +:+ text)
                 +:+ "Total Players: " +:+ str_of_nat (length player_list) +:+ nl)
                +:+ "Teams Created: " +:+ str_of_nat (length teams)),
       Some (set_active false d)).
Proof.
  intros Hmsg Hadm Hact Hsome. cbv zeta.
  destruct (participants (session (load_data f))) as [|phone l] eqn:Hl; [done|].
  destruct (format_teams_ok
              (create_teams rng (player_info (load_data f) <$> phone :: l))
              {| data := load_data f; file := f; body := None |})
    as (text & Hrun & _).
  exists text.
  match goal with |- _ = ?rhs => remember rhs as R eqn:HR end.
  run_command Hmsg. rewrite Hadm, Hact, Hl. cbn [negb]. cbv beta iota.
  rewrite Hrun. by subst R.
Qed.

(** The reply to a successful /end closes with the number of participants
    and the number of teams, [ceil(n/6)]. *)
Theorem end_reports_totals `{StrOps} (rng : Rng) (req : Request) (f : option Store) :
  msg_of req = "/end" →
  is_admin (sender_of req) (load_data f) = true →
  active (session (load_data f)) = true →
  participants (session (load_data f)) ≠ [] →
  let n := length (participants (session (load_data f))) in
  ∃ pre, (whatsapp_bot rng req f).1
         = replies (pre +:+ "Total Players: " +:+ str_of_nat n +:+ nl
                    +:+ "Teams Created: " +:+ str_of_nat (ceil_div n PLAYERS_PER_TEAM)).
Proof.
  intros Hmsg Hadm Hact Hsome n.
  destruct (end_text rng req f Hmsg Hadm Hact Hsome) as (text & Hrun).
  rewrite Hrun. cbn [fst].
  exists ("🎲 *RANDOM TEAM SELECTION*" +:+ nl +:+ nl +:+ text).
  rewrite create_teams_chunks, !length_fmap, length_seq. fold n.
  by rewrite !str_app_assoc.
Qed.

Lemma end_reports_totals_witness :
  let f := Some {| admins := ["S1"]; players := ∅;
                   session := {| active := true;
                                 participants := ["a"; "b"; "c"; "d"; "e"; "f"; "g"] |} |} in
  let req := {| Body := Some "/end"; From := Some "S1"; ProfileName := None |} in
  ∃ pre, (@whatsapp_bot ascii_ops (λ k, 3 * k) req f).1
         = replies (pre +:+ "Total Players: 7" +:+ nl +:+ "Teams Created: 2").
Proof.
  intros f req.
  apply (@end_reports_totals ascii_ops (λ k, 3 * k) req f); [reflexivity..|discriminate].
Defined.

(** /end closes the session for good: after a successful /end, a further
    /end from an admin is refused for want of an active session, and "in"
    and "out" are refused, each without a write, so the roster of the
    ended session stays in the file. *)
Theorem end_is_final `{StrOps} (rng rng' : Rng) (req req' : Request)
    (f : option Store) :
  msg_of req = "/end" →
  is_admin (sender_of req) (load_data f) = true →
  active (session (load_data f)) = true →
  participants (session (load_data f)) ≠ [] →
  let r := whatsapp_bot rng req f in
  (msg_of req' = "/end" → is_admin (sender_of req') (load_data f) = true →
     whatsapp_bot rng' req' r.2 = (replies "❌ No active session. Use /start first", r.2))
  ∧ (msg_of req' = "in" →
     whatsapp_bot rng' req' r.2
     = (replies "❌ No active selection. Wait for admin to /start", r.2))
  ∧ (msg_of req' = "out" →
     whatsapp_bot rng' req' r.2 = (replies "❌ No active selection", r.2)).
Proof.
  intros Hmsg Hadm Hact Hsome r.
  destruct (end_runs rng req f Hmsg Hadm Hact Hsome) as (result & Hrun & _).
  unfold r. rewrite Hrun. cbn [snd].
  split; [|split]; intros Hmsg'; [intros Hadm'|..]; run_command Hmsg'; [|done..].
  change (is_admin (sender_of req') (set_active false (load_data f)))
    with (is_admin (sender_of req') (load_data f)).
  by rewrite Hadm'.
Qed.

Lemma end_is_final_witness :
  let f := Some {| admins := ["S1"]; players := ∅;
                   session := {| active := true; participants := ["P1"] |} |} in
  let req := {| Body := Some "/end"; From := Some "S1"; ProfileName := None |} in
  let r := @whatsapp_bot ascii_ops (λ k, k) req f in
  @whatsapp_bot ascii_ops (λ k, k) req r.2
  = (replies "❌ No active session. Use /start first", r.2).
Proof.
  intros f req r.
  destruct (@end_is_final ascii_ops (λ k, k) (λ k, k) req req f) as (Hagain & _);
    [reflexivity..|discriminate|].
  apply Hagain; reflexivity.
Defined.

(** ** What a request can and cannot change *)

(** Only /addadmin touches the admins list. *)
Lemma other_commands_keep_admins `{StrOps} (rng : Rng) (req : Request)
    (f : option Store) :
  String.prefix "/addadmin" (msg_of req) = false →
  admins (load_data (whatsapp_bot rng req f).2) = admins (load_data f).
Proof.
  intros Hpre. unfold whatsapp_bot. cbv zeta. fold (msg_of req). rewrite Hpre.
  change (default "" (From req)) with (sender_of req).
  change (default "Player" (ProfileName req)) with (profile_name_of req).
  generalize (msg_of req). intros msg.
  set (sender := sender_of req). set (profile_name := profile_name_of req).
  set (d := load_data f).
  unfold run, bind, get_data, modify_data, save_data, reply_body, ret.
  fold d. cbn [data file body].
  destruct (String.eqb msg "/start").
  { simpl. by destruct (is_admin sender d). }
  destruct (String.eqb msg "/end").
  { simpl. destruct (is_admin sender d); simpl; [|done].
    destruct (active (session d)); simpl; [|done].
    destruct (participants (session d)) as [|phone l]; [done|].
    match goal with |- context [format_teams ?teams ?st] =>
      destruct (format_teams_ok teams st) as (text & -> & _) end.
    done. }
  destruct (String.eqb msg "/status").
  { simpl. by destruct (is_admin sender d). }
  destruct (String.eqb msg "/reset").
  { simpl. by destruct (is_admin sender d). }
  destruct (String.eqb msg "in").
  { simpl. destruct (active (session d)); simpl; [|done].
    unfold dict_get.
    destruct (dict_contains (players d) sender) eqn:Hdc; simpl.
    - assert (Hget : ∃ p, players d !! sender = Some p).
      { unfold dict_contains in Hdc. destruct (players d !! sender); [eauto|done]. }
      destruct Hget as [p Hget].
      destruct (bool_decide (sender ∈ participants (session d)));
        simpl; by rewrite Hget.
    - destruct (bool_decide (sender ∈ participants (session d)));
        simpl; by rewrite lookup_insert_eq. }
  destruct (String.eqb msg "out").
  { simpl. destruct (active (session d)); simpl; [|done].
    destruct (decide (sender ∈ participants (session d))) as [Hin|Hout].
    - rewrite (bool_decide_eq_true_2 _ Hin).
      destruct (remove_first_elem _ _ Hin) as [l' Hl'].
      unfold py_remove. by rewrite Hl'.
    - by rewrite (bool_decide_eq_false_2 _ Hout). }
  destruct (String.eqb msg "/help"); [done|].
  by destruct (String.prefix "/" msg).
Qed.

(** The admins list changes in one way only: a request whose text starts
    with /addadmin, on a store without admins, makes its sender the one
    admin.  Every other request leaves the list as it is. *)
Theorem admins_change_only_by_bootstrap `{StrOps} (rng : Rng) (req : Request)
    (f : option Store) :
  let d := load_data f in
  let d' := load_data (whatsapp_bot rng req f).2 in
  admins d' ≠ admins d →
  String.prefix "/addadmin" (msg_of req) = true
  ∧ admins d = [] ∧ admins d' = [sender_of req].
Proof.
  intros d d' Hchange.
  destruct (String.prefix "/addadmin" (msg_of req)) eqn:Hpre.
  - pose proof (addadmin_runs rng req f Hpre) as Hrun. simpl in Hrun.
    unfold d' in *. rewrite Hrun in *. fold d in Hchange |- *.
    destruct (is_admin (sender_of req) d); [done|].
    destruct (decide (admins d = [])); done.
  - destruct Hchange. by apply other_commands_keep_admins.
Qed.

Lemma admins_change_only_by_bootstrap_witness :
  let req := {| Body := Some "/addadmin"; From := Some "S1"; ProfileName := None |} in
  admins (load_data (@whatsapp_bot ascii_ops (λ k, k) req None).2) = ["S1"].
Proof.
  intros req.
  destruct (@admins_change_only_by_bootstrap ascii_ops (λ k, k) req None)
    as (_ & _ & Hnew); [discriminate|exact Hnew].
Defined.

(** Until somebody has sent /addadmin, nothing is ever stored: on a store
    without file, a request with any other text leaves the file absent. *)
Theorem fresh_store_needs_bootstrap `{StrOps} (rng : Rng) (req : Request) :
  String.prefix "/addadmin" (msg_of req) = false →
  (whatsapp_bot rng req None).2 = None.
Proof.
  intros Hpre.
  pose proof (other_commands_keep_admins rng req None Hpre) as Hadm.
  destruct (whatsapp_bot_step rng req None) as [resp [Hrun|(d' & Hrun & Heff)]];
    rewrite Hrun in *; [done|].
  simpl in Hadm. inversion Heff as [Hz| Ha | Ha Hact | Ha | Hact Hout | l' Hact Hl'];
    subst; done.
Qed.

Lemma fresh_store_needs_bootstrap_witness :
  let req := {| Body := Some "/start"; From := Some "S1"; ProfileName := None |} in
  (@whatsapp_bot ascii_ops (λ k, k) req None).2 = None.
Proof.
  intros req. apply (@fresh_store_needs_bootstrap ascii_ops (λ k, k) req). reflexivity.
Defined.

(** A property of two stores that holds of a store and itself and of every
    [Effect] holds between the store before and after a request. *)
Lemma whatsapp_bot_relates `{StrOps} (R : Store → Store → Prop)
    (rng : Rng) (req : Request) (f : option Store) :
  R (load_data f) (load_data f) →
  (∀ d', Effect (sender_of req) (profile_name_of req) (load_data f) d' →
         R (load_data f) d') →
  R (load_data f) (load_data (whatsapp_bot rng req f).2).
Proof.
  intros Hrefl Heff.
  destruct (whatsapp_bot_step rng req f) as [resp [->|(d' & -> & Hd')]]; [done|].
  by apply Heff.
Qed.

(** A sender who is not an admin cannot open or close the session, and
    can change the roster only by putting their own phone at its end or
    taking their own phone off it. *)
Theorem non_admin_reach `{StrOps} (rng : Rng) (req : Request) (f : option Store) :
  is_admin (sender_of req) (load_data f) = false →
  let d := load_data f in
  let d' := load_data (whatsapp_bot rng req f).2 in
  let sender := sender_of req in
  active (session d') = active (session d)
  ∧ (participants (session d') = participants (session d)
     ∨ participants (session d') = participants (session d) ++ [sender]
     ∨ remove_first sender (participants (session d)) = Some (participants (session d'))).
Proof.
  intros Hna d d' sender.
  apply (whatsapp_bot_relates (λ d d',
    active (session d') = active (session d)
    ∧ (participants (session d') = participants (session d)
       ∨ participants (session d') = participants (session d) ++ [sender]
       ∨ remove_first sender (participants (session d))
         = Some (participants (session d'))))); [eauto|].
  intros d1 Heff. inversion Heff; subst; simpl; eauto; congruence.
Qed.

Lemma non_admin_reach_witness :
  let f := Some {| admins := ["S1"]; players := ∅;
                   session := {| active := true; participants := ["P1"] |} |} in
  let req := {| Body := Some "/reset"; From := Some "P2"; ProfileName := None |} in
  active (session (load_data (@whatsapp_bot ascii_ops (λ k, k) req f).2)) = true.
Proof.
  intros f req.
  destruct (@non_admin_reach ascii_ops (λ k, k) req f) as [Hflag _]; [reflexivity|].
  exact Hflag.
Defined.

(** While the session is inactive the roster is frozen: a request leaves
    the session as it is, unless it is an admin's /start or /reset, which
    empty the roster. *)
Theorem inactive_roster_frozen `{StrOps} (rng : Rng) (req : Request)
    (f : option Store) :
  active (session (load_data f)) = false →
  let d := load_data f in
  let d' := load_data (whatsapp_bot rng req f).2 in
  session d' = session d
  ∨ (is_admin (sender_of req) d = true ∧ participants (session d') = []).
Proof.
  intros Hoff d d'.
  apply (whatsapp_bot_relates (λ d d',
    session d' = session d
    ∨ (is_admin (sender_of req) d = true ∧ participants (session d') = [])));
    [eauto|].
  intros d1 Heff. fold d in Heff, Hoff.
  inversion Heff; subst; simpl; eauto; congruence.
Qed.

Lemma inactive_roster_frozen_witness :
  let f := Some {| admins := ["S1"]; players := ∅;
                   session := {| active := false; participants := ["P1"] |} |} in
  let req := {| Body := Some "out"; From := Some "P1"; ProfileName := None |} in
  participants (session (load_data (@whatsapp_bot ascii_ops (λ k, k) req f).2)) = ["P1"].
Proof.
  intros f req.
  destruct (@inactive_roster_frozen ascii_ops (λ k, k) req f) as [Hsame|[Hadm _]];
    [reflexivity| |discriminate Hadm].
  exact (f_equal participants Hsame).
Defined.

(** ** Invariants along sequences of requests, continued *)

Lemma serve_relates `{StrOps} (R : Store → Store → Prop) :
  (∀ d, R d d) →
  (∀ d1 d2 d3, R d1 d2 → R d2 d3 → R d1 d3) →
  (∀ sender profile_name d d', Effect sender profile_name d d' → R d d') →
  ∀ reqs f, R (load_data f) (load_data (serve reqs f).2).
Proof.
  intros Hrefl Htrans Heff reqs.
  induction reqs as [|[rng req] reqs IH]; intros f; simpl; [done|].
  eapply Htrans; [|apply IH].
  apply (whatsapp_bot_relates R); eauto.
Qed.

(** There is never a second admin: a store with at most one admin has at
    most one after any sequence of requests, so every store reached from
    an absent file has at most one. *)
Theorem at_most_one_admin `{StrOps} (reqs : list (Rng * Request)) (f : option Store) :
  length (admins (load_data f)) ≤ 1 →
  length (admins (load_data (serve reqs f).2)) ≤ 1.
Proof.
  apply (serve_relates (λ d d', length (admins d) ≤ 1 → length (admins d') ≤ 1));
    [done|by eauto|].
  intros sender profile_name d d' Heff Hle.
  inversion Heff as [Hz| | | | |]; subst; simpl; try done.
  rewrite Hz. simpl. lia.
Qed.

Lemma at_most_one_admin_witness :
  length (admins (load_data (@serve ascii_ops scenario None).2)) ≤ 1.
Proof.
  apply (@at_most_one_admin ascii_ops scenario None). simpl. lia.
Defined.

(** A player record, once stored, is never deleted and never renamed by
    any sequence of requests. *)
Theorem player_records_kept `{StrOps} (reqs : list (Rng * Request))
    (f : option Store) (phone : string) (p : Player) :
  players (load_data f) !! phone = Some p →
  players (load_data (serve reqs f).2) !! phone = Some p.
Proof.
  apply (serve_relates (λ d d',
    players d !! phone = Some p → players d' !! phone = Some p)); [done|by eauto|].
  intros sender profile_name d d' Heff Hp.
  inversion Heff; subst; simpl; try done.
  destruct (decide (phone = sender)) as [->|Hne].
  - by rewrite (players_after_in_known _ _ _ _ Hp).
  - by rewrite players_after_in_other.
Qed.

Lemma player_records_kept_witness :
  let f := Some {| admins := []; players := {[ "P1" := {| name := "Zed" |} ]};
                   session := {| active := false; participants := [] |} |} in
  players (load_data (@serve ascii_ops scenario f).2) !! "P1" = Some {| name := "Zed" |}.
Proof.
  intros f. apply (@player_records_kept ascii_ops scenario f). reflexivity.
Defined.

(** Every phone on the roster has a player record: the handler keeps this
    true, so it holds of every store reached from an absent file, where
    the fallback name "Unknown" is therefore never shown. *)
Theorem roster_is_registered `{StrOps} (reqs : list (Rng * Request))
    (f : option Store) :
  (∀ phone, phone ∈ participants (session (load_data f)) →
            is_Some (players (load_data f) !! phone)) →
  ∀ phone, phone ∈ participants (session (load_data (serve reqs f).2)) →
           is_Some (players (load_data (serve reqs f).2) !! phone).
Proof.
  apply (serve_relates (λ d d',
    (∀ phone, phone ∈ participants (session d) → is_Some (players d !! phone)) →
    ∀ phone, phone ∈ participants (session d') → is_Some (players d' !! phone)));
    [done|by eauto|].
  intros sender profile_name d d' Heff Hreg phone.
  inversion Heff as [| | | | Hact Hout | l' Hact Hl']; subst; simpl; eauto.
  - by intros ?%elem_of_nil.
  - by intros ?%elem_of_nil.
  - intros [Hin| ->%list_elem_of_singleton]%elem_of_app.
    + destruct (decide (phone = sender)) as [->|Hne]; [done|].
      rewrite players_after_in_other by done. eauto.
    + rewrite players_after_in_sender. eauto.
  - destruct (remove_first_split _ _ _ Hl') as (l1 & l2 & Hl & _ & ->).
    intros [Hin|Hin]%elem_of_app; apply Hreg; rewrite Hl; apply elem_of_app;
      [by left|right; by apply elem_of_cons; right].
Qed.

Lemma roster_is_registered_witness :
  is_Some (players (load_data (@serve ascii_ops scenario None).2) !! "P1").
Proof.
  apply (@roster_is_registered ascii_ops scenario None).
  - intros phone Hin. by apply elem_of_nil in Hin.
  - apply (bool_decide_eq_true_1 _). reflexivity.
Defined.

(** ** Requests with missing fields *)

(** A request without sender and without profile name is served like any
    other: "in" puts the empty phone on the roster and registers it under
    the name "Player". *)
Theorem join_without_fields `{StrOps} (rng : Rng) (req : Request) (f : option Store) :
  From req = None → ProfileName req = None →
  msg_of req = "in" →
  active (session (load_data f)) = true →
  "" ∉ participants (session (load_data f)) →
  players (load_data f) !! "" = None →
  let d := load_data f in
  let r := whatsapp_bot rng req f in
  r.1 = replies ("✅ Player is IN!" +:+ nl +:+ "Current count: "
                 +:+ str_of_nat (length (participants (session d)) + 1) +:+ " players")
  ∧ participants (session (load_data r.2)) = participants (session d) ++ [""]
  ∧ players (load_data r.2) !! "" = Some {| name := "Player" |}.
Proof.
  intros Hfrom Hname Hmsg Hact Hout Hnew d r.
  pose proof (join_runs rng req f Hmsg Hact) as Hrun. simpl in Hrun.
  unfold sender_of, profile_name_of in Hrun. rewrite Hfrom, Hname in Hrun.
  simpl in Hrun. fold d r in Hrun, Hout, Hnew.
  rewrite (bool_decide_eq_false_2 _ Hout), Hnew in Hrun.
  rewrite Hrun. simpl. rewrite length_app. split; [done|]. split; [done|].
  unfold players_after_in, dict_contains. rewrite Hnew. apply lookup_insert_eq.
Qed.

Lemma join_without_fields_witness :
  let f := Some {| admins := ["S1"]; players := ∅;
                   session := {| active := true; participants := [] |} |} in
  let req := {| Body := Some "in"; From := None; ProfileName := None |} in
  players (load_data (@whatsapp_bot ascii_ops (λ k, k) req f).2) !! ""
  = Some {| name := "Player" |}.
Proof.
  intros f req.
  destruct (@join_without_fields ascii_ops (λ k, k) req f) as (_ & _ & Hrec);
    [reflexivity..| |reflexivity|exact Hrec].
  apply (bool_decide_eq_false_1 _). reflexivity.
Defined.

(** The player record made for a new phone is stored only together with
    the roster: "in" from a phone that is on the roster but has no record
    answers with the profile name and writes nothing, so the phone still
    has no record afterwards. *)
Theorem join_on_roster_without_record `{StrOps} (rng : Rng) (req : Request)
    (f : option Store) :
  msg_of req = "in" →
  active (session (load_data f)) = true →
  sender_of req ∈ participants (session (load_data f)) →
  players (load_data f) !! sender_of req = None →
  let r := whatsapp_bot rng req f in
  r = (replies ("ℹ️ You're already in, " +:+ profile_name_of req +:+ "!"), f)
  ∧ players (load_data r.2) !! sender_of req = None.
Proof.
  intros Hmsg Hact Hin Hnew r.
  pose proof (join_runs rng req f Hmsg Hact) as Hrun. simpl in Hrun.
  fold r in Hrun. rewrite (bool_decide_eq_true_2 _ Hin), Hnew in Hrun.
  by rewrite Hrun.
Qed.

Lemma join_on_roster_without_record_witness :
  let f := Some {| admins := ["S1"]; players := ∅;
                   session := {| active := true; participants := ["P1"] |} |} in
  let req := {| Body := Some "in"; From := Some "P1"; ProfileName := Some "Al" |} in
  @whatsapp_bot ascii_ops (λ k, k) req f = (replies "ℹ️ You're already in, Al!", f)
  ∧ players (load_data (@whatsapp_bot ascii_ops (λ k, k) req f).2) !! "P1" = None.
Proof.
  intros f req.
  apply (@join_on_roster_without_record ascii_ops (λ k, k) req f);
    [reflexivity..| |reflexivity].
  apply (bool_decide_eq_true_1 _). reflexivity.
Defined.

(** ** Every command is answered *)

(** A text the dispatcher recognises always gets a reply with a body,
    whoever sends it and whatever the store holds. *)
Theorem known_command_answered `{StrOps} (rng : Rng) (req : Request)
    (f : option Store) :
  known_command (msg_of req) = true →
  ∃ text, (whatsapp_bot rng req f).1 = replies text.
Proof.
  unfold known_command, whatsapp_bot. cbv zeta. fold (msg_of req).
  change (default "" (From req)) with (sender_of req).
  change (default "Player" (ProfileName req)) with (profile_name_of req).
  generalize (msg_of req). intros msg Hknown.
  set (sender := sender_of req). set (profile_name := profile_name_of req).
  set (d := load_data f).
  unfold run, bind, get_data, modify_data, save_data, reply_body, ret.
  fold d. cbn [data file body].
  destruct (String.prefix "/addadmin" msg) eqn:Hpre.
  { simpl. destruct (is_admin sender d); simpl; [eauto|].
    destruct (length (admins d) =? 0); simpl; eauto. }
  destruct (String.eqb_spec msg "/start") as [|Hstart].
  { simpl. destruct (is_admin sender d); simpl; eauto. }
  destruct (String.eqb_spec msg "/end") as [|Hend].
  { simpl. destruct (is_admin sender d); simpl; [|eauto].
    destruct (active (session d)); simpl; [|eauto].
    destruct (participants (session d)) as [|phone l]; [eauto|].
    match goal with |- context [format_teams ?teams ?st] =>
      destruct (format_teams_ok teams st) as (text & -> & _) end.
    simpl. eauto. }
  destruct (String.eqb_spec msg "/status") as [|Hstatus].
  { simpl. destruct (is_admin sender d); simpl; eauto. }
  destruct (String.eqb_spec msg "/reset") as [|Hreset].
  { simpl. destruct (is_admin sender d); simpl; eauto. }
  destruct (String.eqb_spec msg "in") as [|Hjoin].
  { simpl. destruct (active (session d)); simpl; [|eauto].
    unfold dict_get.
    destruct (dict_contains (players d) sender) eqn:Hdc; simpl.
    - assert (Hget : ∃ p, players d !! sender = Some p).
      { unfold dict_contains in Hdc. destruct (players d !! sender); [eauto|done]. }
      destruct Hget as [p Hget].
      destruct (bool_decide (sender ∈ participants (session d)));
        simpl; rewrite Hget; simpl; eauto.
    - destruct (bool_decide (sender ∈ participants (session d)));
        simpl; rewrite lookup_insert_eq; simpl; eauto. }
  destruct (String.eqb_spec msg "out") as [|Hleave].
  { simpl. destruct (active (session d)); simpl; [|eauto].
    destruct (decide (sender ∈ participants (session d))) as [Hin|Hout].
    - rewrite (bool_decide_eq_true_2 _ Hin).
      destruct (remove_first_elem _ _ Hin) as [l' Hl'].
      unfold py_remove. rewrite Hl'. simpl. eauto.
    - rewrite (bool_decide_eq_false_2 _ Hout). simpl. eauto. }
  destruct (String.eqb_spec msg "/help") as [|Hhelp]; [simpl; eauto|].
  exfalso. simpl in Hknown. apply bool_decide_eq_true in Hknown.
  repeat (apply elem_of_cons in Hknown as [Heq|Hknown]; [done|]).
  by apply elem_of_nil in Hknown.
Qed.

Lemma known_command_answered_witness :
  let req := {| Body := Some "/help"; From := None; ProfileName := None |} in
  ∃ text, (@whatsapp_bot ascii_ops (λ k, k) req None).1 = replies text.
Proof.
  intros req.
  apply (@known_command_answered ascii_ops (λ k, k) req None). reflexivity.
Defined.
